(** * Scheduler component and Modbus binary sensors: a shallow embedding

    The development follows two source files:
    - [homeassistant/components/scheduler/__init__.py]: [setup],
      [setup_schedule], the [Schedule] class and the [EventListener] base
      class;
    - [homeassistant/components/modbus/binary_sensor.py]: [_create_virtual],
      [ModbusBinarySensor.async_update] and
      [virtualBinarySensor.set_from_master].

    Python objects that are mutated through references live in an explicit
    store; exceptions are results that keep the store as it was when they
    were raised. *)

From Stdlib Require Import ZArith String Ascii PrimFloat DecimalString.
From Stdlib Require DecimalPos DecimalZ.
From stdpp Require Import base option list.

Set Warnings "-register-all".

Local Open Scope Z_scope.

(** ** Python values and exceptions *)

Module Py.

(** The values [json.load] produces.  A dict keeps its entries in insertion
    order; keys of a Python dict are unique, and [dict_get] reads the first
    binding of a key. *)
Inductive json : Type :=
| JNull
| JBool (b : bool)
| JInt (z : Z)
| JFloat (f : float)
| JStr (s : string)
| JList (l : list json)
| JDict (d : list (string * json)).

Inductive exn : Type :=
| KeyError (key : string)
| TypeError
| IndexError
| AttributeError (attr : string)
| ReferenceError
| PluginResolutionError (component : string)
| OtherError (msg : string).

Inductive result (A : Type) : Type :=
| Ok (a : A)
| Raise (e : exn).
Global Arguments Ok {A} a.
Global Arguments Raise {A} e.

(** Truth value of a Python object, as [or] and [if] test it. *)
Definition truthy (v : json) : bool :=
  match v with
  | JNull => false
  | JBool b => b
  | JInt z => negb (Z.eqb z 0)
  | JFloat f => negb (PrimFloat.eqb f 0%float)
  | JStr s => negb (String.eqb s EmptyString)
  | JList l => match l with [] => false | _ => true end
  | JDict d => match d with [] => false | _ => true end
  end.

(** [a or b] *)
Definition py_or (a b : json) : json := if truthy a then a else b.

Fixpoint dict_get (k : string) (d : list (string * json)) : option json :=
  match d with
  | [] => None
  | (k', v) :: d' => if String.eqb k k' then Some v else dict_get k d'
  end.

(** [v[k]] for a string key [k]: only a dict accepts it. *)
Definition subscript (v : json) (k : string) : result json :=
  match v with
  | JDict d => match dict_get k d with
               | Some x => Ok x
               | None => Raise (KeyError k)
               end
  | _ => Raise TypeError
  end.

Fixpoint chars (s : string) : list json :=
  match s with
  | EmptyString => []
  | String c s' => JStr (String c EmptyString) :: chars s'
  end.

(** The items a [for] loop draws from [v]: the elements of a list, the keys
    of a dict, the characters of a string. *)
Definition iter (v : json) : result (list json) :=
  match v with
  | JList l => Ok l
  | JDict d => Ok (map (fun kv => JStr (fst kv)) d)
  | JStr s => Ok (chars s)
  | _ => Raise TypeError
  end.

(** [str(i)] for an integer. *)
Definition str_of_Z (i : Z) : string := NilZero.string_of_int (Z.to_int i).

End Py.

(** ** The scheduler component *)

Module Scheduler.
Import Py.

(** A reference to a [Schedule] object: its index in the store, in order of
    construction. *)
Definition ref : Type := nat.

(** class Schedule: the instance attributes set by [__init__].  [L] is the
    type of the event listener objects. *)
Record Schedule (L : Type) : Type := mkSchedule {
  schedule_id : json;
  name : json;
  description : json;
  entity_ids : json;
  days : json;
  _event_listeners : list L
}.
Global Arguments mkSchedule {L} _ _ _ _ _ _.
Global Arguments schedule_id {L} _.
Global Arguments name {L} _.
Global Arguments description {L} _.
Global Arguments entity_ids {L} _.
Global Arguments days {L} _.
Global Arguments _event_listeners {L} _.

(** The state a call runs in: the store of [Schedule] objects and the
    [hass] object. *)
Record World (Hass L : Type) : Type := mkWorld {
  heap : list (Schedule L);
  hass : Hass
}.
Global Arguments mkWorld {Hass L} _ _.
Global Arguments heap {Hass L} _.
Global Arguments hass {Hass L} _.

(** The interface of the event listener classes: the two methods of
    [EventListener] that subclasses override.  A method receives [hass],
    reads the store (through [self._schedule]) without changing the
    schedules, and leaves [hass] as it made it, also when it raises. *)
Class EventListenerClass (Hass L : Type) : Type := {
  listener_schedule : L -> list (Schedule L) -> Hass -> result unit * Hass;
  listener_execute : L -> list (Schedule L) -> Hass -> result unit * Hass
}.

(** class EventListener, the base class: [__init__] stores the schedule. *)
Record EventListener : Type := mkEventListener { _schedule : ref }.

Definition EventListener_init (schedule : ref) : EventListener :=
  {| _schedule := schedule |}.

(** [EventListener.schedule]: [pass]. *)
Definition EventListener_schedule {Hass L : Type}
    (self : EventListener) (store : list (Schedule L)) (h : Hass)
  : result unit * Hass := (Ok tt, h).

(** [EventListener.execute]: [pass]. *)
Definition EventListener_execute {Hass L : Type}
    (self : EventListener) (store : list (Schedule L)) (h : Hass)
  : result unit * Hass := (Ok tt, h).

#[global] Instance EventListener_class (Hass : Type)
  : EventListenerClass Hass EventListener := {
  listener_schedule := EventListener_schedule;
  listener_execute := EventListener_execute
}.

(** What [get_component] returns for a listener type: a module with a
    [create(schedule, event_data)] function.  The factory gets the
    reference of the schedule, may read the store, and returns the listener
    or raises; it does not change the schedule. *)
Record Plugin (L : Type) : Type := mkPlugin {
  create : ref -> list (Schedule L) -> json -> result L
}.
Global Arguments mkPlugin {L} _.
Global Arguments create {L} _ _ _ _.

(** Computations on a [World] that may raise; the world survives a raise. *)
Definition M (Hass L A : Type) : Type :=
  World Hass L -> result A * World Hass L.

Definition ret {Hass L A : Type} (a : A) : M Hass L A := fun w => (Ok a, w).

Definition bind {Hass L A B : Type} (m : M Hass L A) (k : A -> M Hass L B)
  : M Hass L B :=
  fun w => match m w with
           | (Ok a, w1) => k a w1
           | (Raise e, w1) => (Raise e, w1)
           end.

Definition lift {Hass L A : Type} (r : result A) : M Hass L A :=
  fun w => (r, w).

Notation "'let*' x ':=' c1 'in' c2" := (bind c1 (fun x => c2))
  (at level 10, x binder, c1 at level 100, c2 at level 200).

(** A [for] loop whose body returns nothing. *)
Fixpoint for_each {Hass L A : Type} (body : A -> M Hass L unit) (xs : list A)
  : M Hass L unit :=
  match xs with
  | [] => ret tt
  | x :: xs' => let* _ := body x in for_each body xs'
  end.

Definition all_days : json :=
  JList [JInt 0; JInt 1; JInt 2; JInt 3; JInt 4; JInt 5; JInt 6].

(** [Schedule.__init__]; an argument left out is [None]. *)
Definition Schedule_init {L : Type}
    (schedule_id name description entity_ids days : json) : Schedule L :=
  {| schedule_id := schedule_id;
     name := name;
     description := description;
     entity_ids := py_or entity_ids (JList []);
     days := py_or days all_days;
     _event_listeners := [] |}.

Definition append_listener {L : Type} (l : L) (s : Schedule L) : Schedule L :=
  {| schedule_id := schedule_id s;
     name := name s;
     description := description s;
     entity_ids := entity_ids s;
     days := days s;
     _event_listeners := _event_listeners s ++ [l] |}.

Section Component.
Context {Hass L : Type} `{EventListenerClass Hass L}.

(** [homeassistant.loader.get_component] is not part of the component: the
    lookup is a parameter that may raise, return [None] or return a
    module. *)
Variable get_component : string -> result (option (Plugin L)).

(** [str(v)] of a value that is not a string, for [str.format]. *)
Variable py_repr : json -> string.

(** [open(hass.get_config_path(_SCHEDULE_FILE))] and [json.load]. *)
Variable load_schedule_file : Hass -> result json.

Definition format (v : json) : string :=
  match v with
  | JStr s => s
  | _ => py_repr v
  end.

(** [Schedule(...)]: a new object in the store. *)
Definition new_Schedule (schedule_id name description entity_ids days : json)
  : M Hass L ref :=
  fun w =>
    (Ok (length (heap w)),
     {| heap := heap w ++
                [Schedule_init schedule_id name description entity_ids days];
        hass := hass w |}).

Definition deref (self : ref) : M Hass L (Schedule L) :=
  fun w => match heap w !! self with
           | Some s => (Ok s, w)
           | None => (Raise ReferenceError, w)
           end.

(** [Schedule.add_event_listener] *)
Definition add_event_listener (self : ref) (event_listener : L)
  : M Hass L unit :=
  let* _ := deref self in
  fun w => (Ok tt, {| heap := alter (append_listener event_listener) self (heap w);
                      hass := hass w |}).

(** [event.schedule(hass)] *)
Definition call_schedule (event : L) : M Hass L unit :=
  fun w => let (r, h) := listener_schedule event (heap w) (hass w) in
           (r, {| heap := heap w; hass := h |}).

(** [event.execute(hass)] *)
Definition call_execute (event : L) : M Hass L unit :=
  fun w => let (r, h) := listener_execute event (heap w) (hass w) in
           (r, {| heap := heap w; hass := h |}).

(** [Schedule.schedule] *)
Definition Schedule_schedule (self : ref) : M Hass L unit :=
  let* s := deref self in
  for_each call_schedule (_event_listeners s).

(** [event_listener_type.create(schedule, event_data)] *)
Definition call_create (event_listener_type : option (Plugin L))
    (schedule : ref) (event_data : json) : M Hass L L :=
  match event_listener_type with
  | None => lift (Raise (AttributeError "create"))
  | Some p => fun w => (create p schedule (heap w) event_data, w)
  end.

(** The body of the loop over [schedule_data['events']]. *)
Definition setup_event (schedule : ref) (event_data : json) : M Hass L unit :=
  let* ty := lift (subscript event_data "type") in
  let* event_listener_type :=
    lift (get_component (String.append "scheduler." (format ty))) in
  let* event_listener :=
    call_create event_listener_type schedule event_data in
  add_event_listener schedule event_listener.

Definition setup_schedule (schedule_data : json) : M Hass L bool :=
  let* sid := lift (subscript schedule_data "id") in
  let* nm := lift (subscript schedule_data "name") in
  let* descr := lift (subscript schedule_data "description") in
  let* ents := lift (subscript schedule_data "entity_ids") in
  let* dys := lift (subscript schedule_data "days") in
  let* schedule := new_Schedule sid nm descr ents dys in
  let* events := lift (subscript schedule_data "events") in
  let* items := lift (iter events) in
  let* _ := for_each (setup_event schedule) items in
  let* _ := Schedule_schedule schedule in
  ret true.

(** The loop of [setup] over the schedule descriptions. *)
Fixpoint setup_all (schedule_descriptions : list json) : M Hass L bool :=
  match schedule_descriptions with
  | [] => ret true
  | schedule_description :: rest =>
      let* ok := setup_schedule schedule_description in
      if negb ok then ret false else setup_all rest
  end.

Definition setup : M Hass L bool :=
  let* schedule_descriptions :=
    (fun w => (load_schedule_file (hass w), w)) in
  let* items := lift (iter schedule_descriptions) in
  setup_all items.

(** The listener [l] is what the module found for the type of the event
    record [ev] creates for the schedule [r]. *)
Definition created_for (r : ref) (ev : json) (l : L) : Prop :=
  exists ty p store,
    subscript ev "type" = Ok ty /\
    get_component (String.append "scheduler." (format ty)) = Ok (Some p) /\
    create p r store ev = Ok l.

(** The type of the event record [ev] does not resolve: the lookup raises
    [e], or it returns [None] and taking [create] of it raises [e]. *)
Definition unresolved (ev : json) (e : exn) : Prop :=
  exists ty,
    subscript ev "type" = Ok ty /\
    (get_component (String.append "scheduler." (format ty)) = Raise e \/
     (get_component (String.append "scheduler." (format ty)) = Ok None /\
      e = AttributeError "create")).

(** Setting up the event record [ev] for the schedule [r] raises [e] for a
    reason of its own: it is no dict or has no [type] (the subscript
    raises), or the factory of its module raises. *)
Definition event_fails (r : ref) (store : list (Schedule L)) (ev : json)
    (e : exn) : Prop :=
  subscript ev "type" = Raise e \/
  exists ty p,
    subscript ev "type" = Ok ty /\
    get_component (String.append "scheduler." (format ty)) = Ok (Some p) /\
    create p r store ev = Raise e.

End Component.

(** A schedule with the listeners [ls] appended, one call of
    [add_event_listener] each. *)
Definition add_listeners {L : Type} (ls : list L) (s : Schedule L)
  : Schedule L :=
  fold_left (fun s l => append_listener l s) ls s.

(** The world after [Schedule(...)] has been called with the five values:
    the new object is the last of the store. *)
Definition constructed {Hass L : Type} (sid nm descr ents dys : json)
    (w : World Hass L) : World Hass L :=
  {| heap := heap w ++ [Schedule_init sid nm descr ents dys];
     hass := hass w |}.

(** The description [sd] has the five entries the constructor is called
    with, and these are their values. *)
Definition has_fields (sd sid nm descr ents dys : json) : Prop :=
  subscript sd "id" = Ok sid /\
  subscript sd "name" = Ok nm /\
  subscript sd "description" = Ok descr /\
  subscript sd "entity_ids" = Ok ents /\
  subscript sd "days" = Ok dys.

(** The keys [setup_schedule] reads for the call of [Schedule(...)], in the
    order it reads them. *)
Definition constructor_keys : list string :=
  ["id"; "name"; "description"; "entity_ids"; "days"]%string.

Definition lacks (d : list (string * json)) (k : string) : bool :=
  match dict_get k d with
  | Some _ => false
  | None => true
  end.

End Scheduler.

(** ** The scheduler clock *)

Module Clock.
Import Py Scheduler.

(** Modelled from the spec: an instant of the clock (section 4.3), which
    the sources do not define; here a number of seconds. *)
Definition Instant : Type := Z.

(** Modelled from the spec: the capability set of an event handler (section
    4.3); the concrete handler variants are not among the sources.
    [scheduleRef] is the back-reference to the owning schedule,
    [computeNextFireTime] is pure, and [execute] reports success or failure
    of the effect at the instant it is given. *)
Class HandlerClass (L : Type) : Type := {
  scheduleRef : L -> ref;
  computeNextFireTime : L -> Instant -> Instant;
  execute : L -> Instant -> result unit
}.

(** Modelled from the spec: the trigger registration record (section 3),
    which is internal to a clock that is not among the sources. *)
Record Trigger (L : Type) : Type := mkTrigger {
  fireAt : Instant;
  weekdayGate : list Z;
  handler : L
}.
Global Arguments mkTrigger {L} _ _ _.
Global Arguments fireAt {L} _.
Global Arguments weekdayGate {L} _.
Global Arguments handler {L} _.

(** Modelled from the spec: the state of the Scheduler Clock (section 4.4),
    which is not among the sources: the current instant, the pending
    triggers ordered by [fireAt] (first registered first among equals) and
    the record of every [execute] the clock invoked, newest first, with its
    outcome. *)
Record ClockState (L : Type) : Type := mkClock {
  now : Instant;
  pending : list (Trigger L);
  executed : list (L * Instant * result unit)
}.
Global Arguments mkClock {L} _ _ _.
Global Arguments now {L} _.
Global Arguments pending {L} _.
Global Arguments executed {L} _.

(** Modelled from the spec: the priority structure of the clock (section
    4.4), not among the sources: ordered by [fireAt], a new trigger after
    the ones with the same [fireAt]. *)
Fixpoint insert_trigger {L : Type} (t : Trigger L) (l : list (Trigger L))
  : list (Trigger L) :=
  match l with
  | [] => [t]
  | u :: l' => if fireAt u <=? fireAt t then u :: insert_trigger t l'
               else t :: u :: l'
  end.

(** Modelled from the spec: [registerTrigger] of the clock (section 4.4). *)
Definition registerTrigger {L : Type} (t : Trigger L) (c : ClockState L)
  : ClockState L :=
  {| now := now c; pending := insert_trigger t (pending c);
     executed := executed c |}.

(** Modelled from the spec: the set [activeDays] of a schedule (section 3),
    read off its [days] attribute: the weekday numbers in the list. *)
Definition active_days (v : json) : list Z :=
  match v with
  | JList l => omap (fun x => match x with JInt z => Some z | _ => None end) l
  | _ => []
  end.

(** Modelled from the spec: the weekday gate test of the clock (section
    4.4), not among the sources. *)
Definition in_gate (wd : Z) (gate : list Z) : bool := existsb (Z.eqb wd) gate.

Section Dispatch.
Context {L : Type} `{HandlerClass L}.

(** The weekday of an instant in the configured time zone. *)
Variable weekday : Instant -> Z.

(** Modelled from the spec: [register(clock)] of a handler (section 4.3):
    the first [fireAt] comes from [computeNextFireTime(now)], the gate is
    the owning schedule's active days. *)
Definition register (h : L) (store : list (Schedule L)) (c : ClockState L)
  : result unit * ClockState L :=
  match store !! scheduleRef h with
  | Some s =>
      (Ok tt,
       registerTrigger {| fireAt := computeNextFireTime h (now c);
                          weekdayGate := active_days (days s);
                          handler := h |} c)
  | None => (Raise ReferenceError, c)
  end.

(** Modelled from the spec: the trigger after a firing at [t_now], with
    [fireAt = handler.computeNextFireTime(now)] (section 4.4). *)
Definition advance (t_now : Instant) (t : Trigger L) : Trigger L :=
  {| fireAt := computeNextFireTime (handler t) t_now;
     weekdayGate := weekdayGate t;
     handler := handler t |}.

(** Modelled from the spec: what the clock does with one due trigger
    (section 4.4): [execute] when the weekday is in the gate, with a
    failure caught and recorded; in all cases a new [fireAt] and the
    trigger back among the pending ones. *)
Definition fire (t_now : Instant) (c : ClockState L) (t : Trigger L)
  : ClockState L :=
  let c1 :=
    if in_gate (weekday t_now) (weekdayGate t)
    then {| now := now c; pending := pending c;
            executed := (handler t, t_now, execute (handler t) t_now)
                        :: executed c |}
    else c in
  registerTrigger (advance t_now t) c1.

(** Modelled from the spec: the test [fireAt <= now] of the clock (section
    4.4), not among the sources. *)
Definition is_due (t_now : Instant) (t : Trigger L) : bool :=
  fireAt t <=? t_now.

(** Modelled from the spec: [tick] of the clock (section 4.4): all
    triggers with [fireAt <= now] are popped, then each is fired. *)
Definition tick (t_now : Instant) (c : ClockState L) : ClockState L :=
  fold_left (fire t_now)
    (List.filter (is_due t_now) (pending c))
    {| now := t_now;
       pending := List.filter (fun t => negb (is_due t_now t)) (pending c);
       executed := executed c |}.

(** Modelled from the spec: the clock driven through a sequence of time
    advances, one [tick] each (section 4.4, the virtual clock of tests). *)
Definition run (times : list Instant) (c : ClockState L) : ClockState L :=
  fold_left (fun c t => tick t c) times c.

(** The recorded [execute] calls of the handlers that the schedule [r]
    owns. *)
Definition executions_of (r : ref) (log : list (L * Instant * result unit))
  : list (L * Instant * result unit) :=
  List.filter (fun e => Nat.eqb (scheduleRef (fst (fst e))) r) log.

(** No trigger of the schedule [r] has a weekday in its gate. *)
Definition gate_closed (r : ref) (l : list (Trigger L)) : Prop :=
  forall t, t ∈ l -> scheduleRef (handler t) = r -> weekdayGate t = [].

End Dispatch.

(** *** A fixed time-of-day handler *)

(** Modelled from the spec: the length of a day in seconds, for the
    time-of-day variant below. *)
Definition day : Z := 86400.

(** Modelled from the spec: the fixed time-of-day variant (section 4.3),
    whose module is not among the sources: it fires at [seconds] after
    midnight. *)
Record TimeEventListener : Type := mkTimeEventListener {
  tel_schedule : ref;
  tel_seconds : Z
}.

(** Modelled from the spec: [computeNextFireTime] of the time-of-day
    variant (section 4.3): the first instant after [after] that falls on the
    configured time of day; the weekday is left to the gate of the clock
    (section 4.4). *)
Definition next_time_of_day (seconds : Z) (after : Instant) : Instant :=
  let at_day := (after / day) * day + seconds in
  if after <? at_day then at_day else at_day + day.

(** Modelled from the spec: the capability set of the time-of-day variant;
    its effect on the target entities is outside the model and succeeds. *)
#[global] Instance TimeEventListener_handler : HandlerClass TimeEventListener := {
  scheduleRef := tel_schedule;
  computeNextFireTime := fun h => next_time_of_day (tel_seconds h);
  execute := fun _ _ => Ok tt
}.

(** Modelled from the spec: the time-of-day variant as a listener class of
    the component: [schedule(hass)] is [register(clock)]. *)
#[global] Instance TimeEventListener_class
  : EventListenerClass (ClockState TimeEventListener) TimeEventListener := {
  listener_schedule := register;
  listener_execute := fun h _ c =>
    (Ok tt, {| now := now c; pending := pending c;
               executed := (h, now c, Ok tt) :: executed c |})
}.

(** Modelled from the spec: reading the time-of-day string [HH:MM[:SS]] of
    an event record (section 6); [digit], [number_from], [number] and
    [fields] are its parts. *)
Definition digit (c : ascii) : option Z :=
  let n := Z.of_nat (nat_of_ascii c) in
  if (48 <=? n) && (n <=? 57) then Some (n - 48) else None.

Fixpoint number_from (acc : Z) (s : string) : option Z :=
  match s with
  | EmptyString => Some acc
  | String c s' => match digit c with
                   | Some d => number_from (10 * acc + d) s'
                   | None => None
                   end
  end.

Definition number (s : string) : option Z :=
  match s with
  | EmptyString => None
  | _ => number_from 0 s
  end.

Fixpoint fields (cur : string) (s : string) : list string :=
  match s with
  | EmptyString => [cur]
  | String c s' =>
      if Ascii.eqb c ":"%char then cur :: fields EmptyString s'
      else fields (String.append cur (String c EmptyString)) s'
  end.

(** Modelled from the spec: seconds after midnight of a time-of-day string
    [HH:MM[:SS]] (section 6). *)
Definition time_of_day (s : string) : option Z :=
  match List.map number (fields EmptyString s) with
  | [Some h; Some m] => Some (h * 3600 + m * 60)
  | [Some h; Some m; Some sec] => Some (h * 3600 + m * 60 + sec)
  | _ => None
  end.

(** Modelled from the spec: the factory of the time-of-day variant, given
    the owning schedule and the raw event record (sections 3 and 6). *)
Definition time_plugin : Plugin TimeEventListener :=
  {| create := fun schedule _ event_data =>
       match subscript event_data "time" with
       | Ok (JStr s) =>
           match time_of_day s with
           | Some secs => Ok {| tel_schedule := schedule; tel_seconds := secs |}
           | None => Raise (OtherError "time")
           end
       | Ok _ => Raise TypeError
       | Raise e => Raise e
       end |}.

(** Modelled from the spec: the plugin lookup (section 6), whose
    implementation is not among the sources: a factory for a known type,
    [PluginResolutionError] for an unknown one. *)
Definition lookup (name : string) : result (option (Plugin TimeEventListener)) :=
  if String.eqb name "scheduler.time" then Ok (Some time_plugin)
  else Raise (PluginResolutionError name).

(** Modelled from the spec: the weekday of an instant (section 4.4), here
    of a Unix time in UTC, Monday = 0. *)
Definition unix_weekday (t : Instant) : Z := (t / day + 3) mod 7.

End Clock.

(** ** Modbus binary sensors *)

Module Modbus.
Import Py.

(** The values of a sensor state: [None], a [bool] restored from the last
    state, or the [int] that [bits[0] & 1] gives. *)
Inductive pyval : Type :=
| VNone
| VBool (b : bool)
| VInt (z : Z).

(** class virtualBinarySensor *)
Record virtualBinarySensor : Type := mkVirtual {
  _name : string;
  _device_class : option string;
  _state : pyval;
  _available : bool
}.

(** [virtualBinarySensor.__init__] *)
Definition virtualBinarySensor_init (name : string) (device_class : option string)
  : virtualBinarySensor :=
  {| _name := name; _device_class := device_class;
     _state := VNone; _available := true |}.

(** [range(a, b)] *)
Definition range (a b : Z) : list Z :=
  List.map (fun k => a + Z.of_nat k) (seq 0 (Z.to_nat (b - a))).

(** The first loop of [_create_virtual]: the list [names] after the
    generated names have been appended to it (the caller's list object is
    the one extended). *)
Definition extend_names (sensor_name : string) (count : option Z)
    (names : option (list string)) : list string :=
  let count := match count with None => 0 | Some c => c end in
  let names := match names with None => [] | Some l => l end in
  fold_left
    (fun names i =>
       names ++ [String.append sensor_name (String.append "_" (str_of_Z i))])
    (range (Z.of_nat (length names) + 1) (count + 1))
    names.

Definition _create_virtual (sensor_name : string) (device_class : option string)
    (count : option Z) (names : option (list string))
  : list virtualBinarySensor :=
  fold_left
    (fun virtual_sensors name =>
       virtual_sensors ++ [virtualBinarySensor_init name device_class])
    (extend_names sensor_name count names)
    [].

(** A reference to a virtual sensor object: its index in the store. *)
Definition vref : Type := nat.

(** What the entity platform is asked to do, in order. *)
Inductive ha_call : Type :=
| ScheduleUpdate (entity : option vref)
| WriteState.

(** class ModbusBinarySensor: the attributes [async_update] works on, with
    the store of the virtual sensor objects and the calls made to the
    entity platform (newest first). *)
Record ModbusBinarySensor : Type := mkMaster {
  _value : pyval;
  master_available : bool;
  _virtual_sensors : option (list vref);
  store : list virtualBinarySensor;
  calls : list ha_call
}.

(** The [_virtual_sensors] attribute as [ModbusBinarySensor.__init__] sets
    it. *)
Definition init_virtual_sensors (virtual_sensors : list vref)
  : option (list vref) :=
  if (length virtual_sensors =? 0)%nat then None else Some virtual_sensors.

(** [virtualBinarySensor.set_from_master], on the object at [self]. *)
Definition set_from_master (self : vref) (state : pyval) (available : bool)
    (m : ModbusBinarySensor) : ModbusBinarySensor :=
  {| _value := _value m;
     master_available := master_available m;
     _virtual_sensors := _virtual_sensors m;
     store := alter (fun v => {| _name := _name v;
                                 _device_class := _device_class v;
                                 _state := state;
                                 _available := available |}) self (store m);
     calls := ScheduleUpdate (Some self) :: calls m |}.

(** [for entry in rs: entry.set_from_master(self._value, self._available)] *)
Definition broadcast_to (rs : list vref) (m : ModbusBinarySensor)
  : ModbusBinarySensor :=
  fold_left
    (fun m entry => set_from_master entry (_value m) (master_available m) m)
    rs m.

(** [if self._virtual_sensors:] and the loop over them; [None] and an empty
    list are both false. *)
Definition broadcast (m : ModbusBinarySensor) : ModbusBinarySensor :=
  match _virtual_sensors m with
  | Some (r :: rs) => broadcast_to (r :: rs) m
  | _ => m
  end.

Definition with_master (value : pyval) (available : bool)
    (m : ModbusBinarySensor) : ModbusBinarySensor :=
  {| _value := value; master_available := available;
     _virtual_sensors := _virtual_sensors m; store := store m;
     calls := calls m |}.

Definition ha (c : ha_call) (m : ModbusBinarySensor) : ModbusBinarySensor :=
  {| _value := _value m; master_available := master_available m;
     _virtual_sensors := _virtual_sensors m; store := store m;
     calls := c :: calls m |}.

(** [ModbusBinarySensor.async_update]; [hub_result] is what
    [async_pymodbus_call] returned: [None], or a response with its
    [bits]. *)
Definition async_update (hub_result : option (list bool))
    (m : ModbusBinarySensor) : result unit * ModbusBinarySensor :=
  match hub_result with
  | None =>
      let m := with_master (_value m) false m in
      let m := broadcast m in
      (Ok tt, ha WriteState m)
  | Some bits =>
      match bits with
      | [] => (Raise IndexError, m)
      | b :: _ =>
          let m := with_master (VInt (if b then 1 else 0)) true m in
          let m := broadcast m in
          let m := ha (ScheduleUpdate None) m in
          (Ok tt, ha WriteState m)
      end
  end.

(** Successive calls of [async_update], one for each hub result in turn; an
    exception ends them. *)
Fixpoint poll (hub_results : list (option (list bool)))
    (m : ModbusBinarySensor) : result unit * ModbusBinarySensor :=
  match hub_results with
  | [] => (Ok tt, m)
  | hub_result :: rest =>
      match async_update hub_result m with
      | (Ok _, m1) => poll rest m1
      | (Raise e, m1) => (Raise e, m1)
      end
  end.

(** The value of the first bit of the last response among the hub
    results, or [v] when none of them is a response. *)
Definition last_reading (hub_results : list (option (list bool))) (v : pyval)
  : pyval :=
  fold_left
    (fun (v : pyval) (hub_result : option (list bool)) =>
       match hub_result with
       | Some (b :: _) => VInt (if b then 1 else 0)
       | _ => v
       end)
    hub_results v.

(** The references of the attached virtual sensors, none when the
    attribute is [None]. *)
Definition attached (m : ModbusBinarySensor) : list vref :=
  match _virtual_sensors m with
  | Some rs => rs
  | None => []
  end.

(** The sensor object [v] after [set_from_master(state, available)]: only
    its state and availability are written. *)
Definition shown (state : pyval) (available : bool) (v : virtualBinarySensor)
  : virtualBinarySensor :=
  {| _name := _name v; _device_class := _device_class v;
     _state := state; _available := available |}.

(** Every reference the master holds is a sensor object of the store, as it
    is for the list built by [async_setup_platform]. *)
Definition attached_exist (m : ModbusBinarySensor) : Prop :=
  forall r : vref, r ∈ attached m -> is_Some (store m !! r).

(** Every virtual sensor attached to the master is in the store and shows
    the master's value and availability. *)
Definition synced (m : ModbusBinarySensor) : Prop :=
  forall r : vref,
    r ∈ attached m ->
    exists v : virtualBinarySensor,
      store m !! r = Some v /\
      _state v = _value m /\ _available v = master_available m.

End Modbus.

(** ** ESPHome lights *)

Module Esphome.
Import Py.

(** The fields of [LightInfo] (the [_static_info] of the entity) that the
    light reads for its features and its commands. *)
Record LightInfo : Type := mkLightInfo {
  key : Z;
  supports_brightness : bool;
  supports_rgb : bool;
  supports_white_value : bool;
  supports_color_temperature : bool;
  effects : list string
}.

(** [d[k] = v] on a dict: the value of an existing key is replaced in
    place, a new key goes to the end. *)
Fixpoint dict_set (k : string) (v : json) (d : list (string * json))
  : list (string * json) :=
  match d with
  | [] => [(k, v)]
  | (k', v') :: d' =>
      if String.eqb k k' then (k, v) :: d' else (k', v') :: dict_set k v d'
  end.

(** The value [v] is the string [s]. *)
Definition json_is_str (s : string) (v : json) : bool :=
  match v with
  | JStr s' => String.eqb s' s
  | _ => false
  end.

Section Light.

(** The feature flags and attribute names come from
    [homeassistant.components.light], which is not among the sources. *)
Variables SUPPORT_BRIGHTNESS SUPPORT_COLOR SUPPORT_COLOR_TEMP SUPPORT_EFFECT
          SUPPORT_FLASH SUPPORT_TRANSITION SUPPORT_WHITE_VALUE : Z.
Variables ATTR_FLASH ATTR_TRANSITION FLASH_SHORT FLASH_LONG : string.

(** [str(v)] of a value that is not a string, for the key of a
    [KeyError]. *)
Variable py_repr : json -> string.

(** [EsphomeLight.supported_features] *)
Definition supported_features (info : LightInfo) : Z :=
  let flags := SUPPORT_FLASH in
  let flags :=
    if supports_brightness info
    then Z.lor (Z.lor flags SUPPORT_BRIGHTNESS) SUPPORT_TRANSITION
    else flags in
  let flags := if supports_rgb info then Z.lor flags SUPPORT_COLOR
               else flags in
  let flags := if supports_white_value info
               then Z.lor flags SUPPORT_WHITE_VALUE else flags in
  let flags := if supports_color_temperature info
               then Z.lor flags SUPPORT_COLOR_TEMP else flags in
  let flags := match effects info with
               | [] => flags
               | _ :: _ => Z.lor flags SUPPORT_EFFECT
               end in
  flags.

(** [FLASH_LENGTHS[v]] for the dict [{FLASH_SHORT: 2, FLASH_LONG: 10}]: a
    string is looked up (the later entry wins if both names are the same
    string), a list or dict cannot be hashed, anything else is no key of
    it. *)
Definition flash_length (v : json) : result json :=
  match v with
  | JStr s =>
      if String.eqb s FLASH_LONG then Ok (JInt 10)
      else if String.eqb s FLASH_SHORT then Ok (JInt 2)
      else Raise (KeyError s)
  | JList _ | JDict _ => Raise TypeError
  | _ => Raise (KeyError (py_repr v))
  end.

(** The part of a command that [async_turn_on] and [async_turn_off] share:
    [flash_length] and [transition_length], when the keyword arguments have
    them. *)
Definition with_flash (kwargs data : list (string * json))
  : result (list (string * json)) :=
  match dict_get ATTR_FLASH kwargs with
  | Some v =>
      match flash_length v with
      | Ok n => Ok (dict_set "flash_length" n data)
      | Raise e => Raise e
      end
  | None => Ok data
  end.

Definition with_transition (kwargs data : list (string * json))
  : list (string * json) :=
  match dict_get ATTR_TRANSITION kwargs with
  | Some v => dict_set "transition_length" v data
  | None => data
  end.

(** [EsphomeLight.async_turn_off]: the commands sent to the client so far
    are the state; [light_command], called with the entries of [data] as
    keyword arguments, adds one. *)
Definition async_turn_off (info : LightInfo) (kwargs : list (string * json))
    (sent : list (list (string * json)))
  : result unit * list (list (string * json)) :=
  let data := [("key"%string, JInt (key info));
               ("state"%string, JBool false)] in
  match with_flash kwargs data with
  | Raise e => (Raise e, sent)
  | Ok data =>
      let data := with_transition kwargs data in
      (Ok tt, sent ++ [data])
  end.

End Light.

End Esphome.

(** ** Sample inputs *)

Module Sample.
Import Py Scheduler Clock.

Local Open Scope string_scope.

Definition time_event : json :=
  JDict [("type", JStr "time"); ("time", JStr "07:00")].

Definition foo_event : json := JDict [("type", JStr "foo")].

(** A description with every key, [days] being [null]. *)
Definition morning : json :=
  JDict [("id", JStr "morning");
         ("name", JStr "Morning lights");
         ("description", JStr "Kitchen light at seven");
         ("entity_ids", JList [JStr "light.kitchen"; JStr "light.hall"]);
         ("days", JNull);
         ("events", JList [time_event])].

(** The same description with the [days] key left out. *)
Definition morning_without_days : json :=
  JDict [("id", JStr "morning");
         ("name", JStr "Morning lights");
         ("description", JStr "Kitchen light at seven");
         ("entity_ids", JList [JStr "light.kitchen"; JStr "light.hall"]);
         ("events", JList [time_event])].

(** A description whose second event has a type no module exists for. *)
Definition night : json :=
  JDict [("id", JStr "night");
         ("name", JStr "Night");
         ("description", JStr "All off");
         ("entity_ids", JList [JStr "group.all_lights"]);
         ("days", JList [JInt 0; JInt 2; JInt 4]);
         ("events", JList [time_event; foo_event])].

Definition repr (v : json) : string := "<object>".

(** A lookup that finds the same module as [lookup] and returns [None],
    without raising, for a type it has no module for. *)
Definition lookup_or_none (name : string)
  : result (option (Plugin TimeEventListener)) :=
  if String.eqb name "scheduler.time" then Ok (Some time_plugin)
  else Ok None.

Definition schedule_file (h : ClockState TimeEventListener) : result json :=
  Ok (JList [morning]).

Definition empty_clock : ClockState TimeEventListener :=
  {| now := 0; pending := []; executed := [] |}.

Definition w0 : World (ClockState TimeEventListener) TimeEventListener :=
  {| heap := []; hass := empty_clock |}.

Definition at_seven : TimeEventListener :=
  {| tel_schedule := 0%nat; tel_seconds := 25200 |}.

(** The schedule [setup_schedule] builds from [morning]. *)
Definition morning_schedule : Schedule TimeEventListener :=
  {| schedule_id := JStr "morning";
     name := JStr "Morning lights";
     description := JStr "Kitchen light at seven";
     entity_ids := JList [JStr "light.kitchen"; JStr "light.hall"];
     days := all_days;
     _event_listeners := [at_seven] |}.

(** The store holding [morning_schedule], nothing scheduled yet. *)
Definition w_morning
  : World (ClockState TimeEventListener) TimeEventListener :=
  {| heap := [morning_schedule]; hass := empty_clock |}.

(** A schedule that owns one listener of the base class. *)
Definition w_base : World (ClockState EventListener) EventListener :=
  {| heap := [{| schedule_id := JStr "base"; name := JNull;
                 description := JNull; entity_ids := JList [];
                 days := all_days;
                 _event_listeners := [EventListener_init 0%nat] |}];
     hass := {| now := 0; pending := []; executed := [] |} |}.

Definition pending_count {A : Type} (c : ClockState A) : nat :=
  length (pending c).

(** A master sensor restored as on, with two virtual sensors as
    [_create_virtual] makes them. *)
Definition master : Modbus.ModbusBinarySensor :=
  {| Modbus._value := Modbus.VBool true;
     Modbus.master_available := true;
     Modbus._virtual_sensors := Modbus.init_virtual_sensors [0%nat; 1%nat];
     Modbus.store :=
       Modbus._create_virtual "door" None (Some 2) (Some ["front"]);
     Modbus.calls := [] |}.

(** A schedule whose [days] attribute has been set to the empty list after
    construction, and its one listener. *)
Definition never_schedule : Schedule TimeEventListener :=
  {| schedule_id := JStr "never"; name := JNull; description := JNull;
     entity_ids := JList []; days := JList [];
     _event_listeners := [at_seven] |}.

(** The clock after that listener has registered. *)
Definition never_clock : ClockState TimeEventListener :=
  snd (register at_seven [never_schedule] empty_clock).

(** The entries of a description that lacks [name] and [days]. *)
Definition unnamed_entries : list (string * json) :=
  [("id", JStr "unnamed");
   ("description", JStr "No name, no days");
   ("entity_ids", JList []);
   ("events", JList [time_event])].

(** A schedule file that holds the object [morning] itself, not a list. *)
Definition object_file (h : ClockState TimeEventListener) : result json :=
  Ok morning.

(** A description with the five constructor entries and no [events]. *)
Definition without_events : json :=
  JDict [("id", JStr "bare"); ("name", JStr "Bare");
         ("description", JNull); ("entity_ids", JNull); ("days", JNull)].

(** A description whose list of events is empty. *)
Definition idle : json :=
  JDict [("id", JStr "idle"); ("name", JStr "Idle");
         ("description", JNull); ("entity_ids", JNull);
         ("days", JList [JInt 5; JInt 6]); ("events", JList [])].

(** A description whose second event record has no [type]. *)
Definition untyped_event : json := JDict [("time", JStr "08:30")].

Definition half_typed : json :=
  JDict [("id", JStr "half"); ("name", JStr "Half");
         ("description", JNull); ("entity_ids", JNull); ("days", JNull);
         ("events", JList [time_event; untyped_event; time_event])].

(** A description with [days] [null] whose only event has a type no module
    exists for. *)
Definition restless : json :=
  JDict [("id", JStr "restless"); ("name", JStr "Restless");
         ("description", JNull); ("entity_ids", JNull); ("days", JNull);
         ("events", JList [foo_event])].

(** A listener whose schedule is not in the store: its [schedule(hass)]
    raises. *)
Definition stray : TimeEventListener :=
  {| tel_schedule := 7%nat; tel_seconds := 0 |}.

(** A store whose one schedule owns a listener, then [stray], then another
    listener. *)
Definition w_stray : World (ClockState TimeEventListener) TimeEventListener :=
  {| heap := [{| schedule_id := JStr "stray"; name := JNull;
                 description := JNull; entity_ids := JList [];
                 days := all_days;
                 _event_listeners := [at_seven; stray; at_seven] |}];
     hass := empty_clock |}.

(** A master with only the first of the two sensors of the store
    attached. *)
Definition master_of_one : Modbus.ModbusBinarySensor :=
  {| Modbus._value := Modbus.VNone;
     Modbus.master_available := true;
     Modbus._virtual_sensors := Modbus.init_virtual_sensors [0%nat];
     Modbus.store :=
       Modbus._create_virtual "door" None (Some 2) (Some ["front"]);
     Modbus.calls := [] |}.

(** A light with brightness, colour and two effects, and keyword arguments
    for turning it off. *)
Definition bulb : Esphome.LightInfo :=
  {| Esphome.key := 42;
     Esphome.supports_brightness := true;
     Esphome.supports_rgb := true;
     Esphome.supports_white_value := false;
     Esphome.supports_color_temperature := false;
     Esphome.effects := ["rainbow"; "strobe"] |}.

Definition off_slowly : list (string * json) :=
  [("transition", JInt 3); ("brightness", JInt 200); ("flash", JStr "long")].

Definition off_blinking : list (string * json) :=
  [("flash", JStr "strobe"); ("transition", JInt 3)].

End Sample.

(** * Properties of the scheduler component *)

Section SchedulerFacts.
  Import Py Scheduler.
  Context {Hass L : Type} `{EventListenerClass Hass L}.
  Variable get_component : string -> result (option (Plugin L)).
  Variable py_repr : json -> string.
  Variable load_schedule_file : Hass -> result json.

  Abbreviation setup_event := (setup_event get_component py_repr).
  Abbreviation setup_schedule := (setup_schedule get_component py_repr).
  Abbreviation setup_all := (setup_all get_component py_repr).
  Abbreviation setup := (setup get_component py_repr load_schedule_file).
  Abbreviation created_for := (created_for get_component py_repr).
  Abbreviation unresolved := (unresolved get_component py_repr).

Lemma bind_Ok {A B : Type} (m : M Hass L A) (k : A -> M Hass L B) w b w' :
  bind m k w = (Ok b, w') ->
  exists a w1, m w = (Ok a, w1) /\ k a w1 = (Ok b, w').
Proof.
  unfold bind. destruct (m w) as [[a|e] w1]; intros Hk.
  - exists a, w1. split; [reflexivity | exact Hk].
  - discriminate Hk.
Qed.

Lemma bind_step {A B : Type} (m : M Hass L A) (k : A -> M Hass L B) w a w1 :
  m w = (Ok a, w1) -> bind m k w = k a w1.
Proof. intros Hm. unfold bind. rewrite Hm. reflexivity. Qed.

Lemma bind_raise {A B : Type} (m : M Hass L A) (k : A -> M Hass L B) w e w1 :
  m w = (Raise e, w1) -> bind m k w = (Raise e, w1).
Proof. intros Hm. unfold bind. rewrite Hm. reflexivity. Qed.

Lemma lift_Ok {A : Type} (r : result A) (w w' : World Hass L) a :
  lift r w = (Ok a, w') -> r = Ok a /\ w' = w.
Proof. unfold lift. intros Hr. inversion Hr. split; reflexivity. Qed.

(** From a run [let* x := lift r in k] that returned: the value of [r] and
    the rest of the run. *)
Ltac bind_lift H x Hx :=
  let w1 := fresh "w" in
  apply bind_Ok in H as (x & w1 & Hx & H);
  apply lift_Ok in Hx as [Hx ->].

Lemma deref_Ok (r : ref) (w w' : World Hass L) s :
  deref r w = (Ok s, w') -> heap w !! r = Some s /\ w' = w.
Proof.
  unfold deref. destruct (heap w !! r) as [s0|]; intros Hd; inversion Hd.
  split; reflexivity.
Qed.

Lemma deref_found (r : ref) (w : World Hass L) s :
  heap w !! r = Some s -> deref r w = (Ok s, w).
Proof. intros Hs. unfold deref. rewrite Hs. reflexivity. Qed.

(** [Schedule.__init__]: a false [days] argument ([None], an empty list)
    gives all seven days, any other is kept; so [days] is never left
    empty. *)
Lemma Schedule_init_days (sid nm descr ents dys : json) :
  days (Schedule_init sid nm descr ents dys : Schedule L) =
  if truthy dys then dys else all_days.
Proof. reflexivity. Qed.

Lemma Schedule_init_days_not_empty (sid nm descr ents dys : json) :
  days (Schedule_init sid nm descr ents dys : Schedule L) <> JList [].
Proof.
  rewrite Schedule_init_days. destruct (truthy dys) eqn:Ht.
  - intros ->. discriminate Ht.
  - discriminate.
Qed.

(** Appending listeners touches the listener list only. *)
Lemma add_listeners_fields (ls : list L) (s : Schedule L) :
  _event_listeners (add_listeners ls s) = _event_listeners s ++ ls /\
  entity_ids (add_listeners ls s) = entity_ids s /\
  days (add_listeners ls s) = days s /\
  schedule_id (add_listeners ls s) = schedule_id s.
Proof.
  revert s. induction ls as [|l ls IH]; intros s; simpl.
  - rewrite app_nil_r. repeat split.
  - destruct (IH (append_listener l s)) as (Hl & He & Hd & Hi).
    unfold add_listeners in *. rewrite Hl, He, Hd, Hi. simpl.
    rewrite <- app_assoc. repeat split.
Qed.

Lemma add_listeners_nil (s : Schedule L) : add_listeners [] s = s.
Proof. reflexivity. Qed.

Lemma add_listeners_snoc (ls : list L) (l : L) (s : Schedule L) :
  add_listeners (ls ++ [l]) s = append_listener l (add_listeners ls s).
Proof. unfold add_listeners. rewrite fold_left_app. reflexivity. Qed.

(** One round of the loop over the event records, when it goes through. *)
Lemma setup_event_Ok (r : ref) (ev : json) (w w' : World Hass L) u :
  setup_event r ev w = (Ok u, w') ->
  exists l, created_for r ev l /\
            is_Some (heap w !! r) /\
            w' = {| heap := alter (append_listener l) r (heap w);
                    hass := hass w |}.
Proof.
  unfold Scheduler.setup_event. intros Hrun.
  bind_lift Hrun ty Hty. bind_lift Hrun p Hp.
  apply bind_Ok in Hrun as (l & w3 & Hl & Hrun).
  destruct p as [p|]; simpl in Hl.
  - inversion Hl as [[Hc Hw]]. subst w3.
    unfold add_event_listener in Hrun.
    apply bind_Ok in Hrun as (s & w4 & Hs & Hrun).
    apply deref_Ok in Hs as [Hs ->].
    inversion Hrun. exists l. split; [|split; [eauto | reflexivity]].
    exists ty, p, (heap w). auto.
  - unfold lift in Hl. discriminate Hl.
Qed.

(** The whole loop: the listeners are created in the order of the records
    and appended to the schedule at [r]; nothing else changes. *)
Lemma setup_events_Ok (r : ref) (evs : list json) :
  forall (w w' : World Hass L) u,
    for_each (setup_event r) evs w = (Ok u, w') ->
    exists ls, Forall2 (created_for r) evs ls /\
               hass w' = hass w /\
               heap w' = alter (add_listeners ls) r (heap w).
Proof.
  induction evs as [|ev evs IH]; intros w w' u Hrun; simpl in Hrun.
  - inversion Hrun. subst. exists []. split; [constructor | split; [reflexivity |]].
    symmetry. apply list_alter_id. intros s. reflexivity.
  - apply bind_Ok in Hrun as (u1 & w1 & Hev & Hrun).
    apply setup_event_Ok in Hev as (l & Hl & _ & ->).
    apply IH in Hrun as (ls & Hls & Hh & Hp). simpl in Hh, Hp.
    exists (l :: ls). split; [constructor; assumption | split; [exact Hh |]].
    rewrite Hp, list_alter_alter_eq. reflexivity.
Qed.

(** Scheduling the listeners never touches the store of schedules. *)
Lemma call_schedule_heap (l : L) (w : World Hass L) :
  heap (snd (call_schedule l w)) = heap w.
Proof.
  unfold call_schedule.
  destruct (listener_schedule l (heap w) (hass w)) as [r h]. reflexivity.
Qed.

Lemma for_each_call_schedule_heap (ls : list L) :
  forall w : World Hass L, heap (snd (for_each call_schedule ls w)) = heap w.
Proof.
  induction ls as [|l ls IH]; intros w; simpl; [reflexivity|].
  unfold bind. pose proof (call_schedule_heap l w) as Hl.
  destruct (call_schedule l w) as [[u|e] w1]; simpl in *.
  - rewrite IH. exact Hl.
  - exact Hl.
Qed.

(** What a run of [setup_schedule] that returns has done: one new schedule,
    built by [Schedule.__init__] from the five fields and given the created
    listeners in order; then the listeners scheduled on [hass]. *)
Lemma setup_schedule_Ok (sd : json) (w w' : World Hass L) b :
  setup_schedule sd w = (Ok b, w') ->
  exists sid nm descr ents dys events evs ls,
    subscript sd "id" = Ok sid /\
    subscript sd "name" = Ok nm /\
    subscript sd "description" = Ok descr /\
    subscript sd "entity_ids" = Ok ents /\
    subscript sd "days" = Ok dys /\
    subscript sd "events" = Ok events /\
    iter events = Ok evs /\
    Forall2 (created_for (length (heap w))) evs ls /\
    heap w' = heap w ++ [add_listeners ls (Schedule_init sid nm descr ents dys)] /\
    for_each call_schedule ls
      {| heap := heap w'; hass := hass w |} = (Ok tt, w') /\
    b = true.
Proof.
  unfold Scheduler.setup_schedule. intros Hrun.
  bind_lift Hrun sid Hsid. bind_lift Hrun nm Hnm.
  bind_lift Hrun descr Hdescr. bind_lift Hrun ents Hents.
  bind_lift Hrun dys Hdys.
  apply bind_Ok in Hrun as (r & w1 & Hnew & Hrun).
  unfold new_Schedule in Hnew. inversion Hnew as [[Hr Hw1]]. clear Hnew.
  bind_lift Hrun events Hevents. bind_lift Hrun evs Hevs.
  apply bind_Ok in Hrun as (u & w2 & Hloop & Hrun).
  apply setup_events_Ok in Hloop as (ls & Hls & Hh2 & Hp2).
  apply bind_Ok in Hrun as (u' & w3 & Hsched & Hrun).
  inversion Hrun. subst w3 b. clear Hrun.
  subst w1 r. simpl in Hh2, Hp2.
  rewrite alter_app_r_alt, Nat.sub_diag in Hp2 by lia. simpl in Hp2.
  unfold Schedule_schedule in Hsched.
  apply bind_Ok in Hsched as (s & w4 & Hs & Hsched).
  apply deref_Ok in Hs as [Hs ->].
  rewrite Hp2 in Hs.
  rewrite lookup_app_r in Hs by lia.
  rewrite Nat.sub_diag in Hs.
  simpl in Hs. inversion Hs as [Hs']. clear Hs.
  rewrite <- Hs' in Hsched.
  destruct (add_listeners_fields ls (Schedule_init sid nm descr ents dys))
    as (Hl & _). simpl in Hl. rewrite Hl in Hsched.
  pose proof (for_each_call_schedule_heap ls w2) as Hheap.
  rewrite Hsched in Hheap. simpl in Hheap.
  exists sid, nm, descr, ents, dys, events, evs, ls.
  repeat (split; [assumption|]).
  split; [congruence|].
  split; [|reflexivity].
  destruct u'. rewrite <- Hsched. f_equal.
  destruct w2 as [h2 a2]. simpl in *. congruence.
Qed.

Lemma for_each_raise_at {A : Type} (body : A -> M Hass L unit)
    (pre post : list A) (x : A) :
  forall (w w1 w2 : World Hass L) e,
    for_each body pre w = (Ok tt, w1) ->
    body x w1 = (Raise e, w2) ->
    for_each body (pre ++ x :: post) w = (Raise e, w2).
Proof.
  induction pre as [|y pre IH]; intros w w1 w2 e Hpre Hx; simpl in *.
  - inversion Hpre. subst w1. apply bind_raise. exact Hx.
  - apply bind_Ok in Hpre as (u & w0 & Hy & Hpre).
    rewrite (bind_step _ _ _ _ _ Hy). eapply IH; eassumption.
Qed.

(** An event record whose type does not resolve stops the loop with the
    error of the lookup, and leaves the world as it found it. *)
Lemma setup_event_unresolved (r : ref) (ev : json) (e : exn)
    (w : World Hass L) :
  unresolved ev e -> setup_event r ev w = (Raise e, w).
Proof.
  intros (ty & Hty & Hlook). unfold Scheduler.setup_event.
  rewrite (bind_step _ _ w ty w) by (unfold lift; rewrite Hty; reflexivity).
  destruct Hlook as [Hraise | [Hnone ->]].
  - apply bind_raise. unfold lift. rewrite Hraise. reflexivity.
  - rewrite (bind_step _ _ w None w)
      by (unfold lift; rewrite Hnone; reflexivity).
    apply bind_raise. reflexivity.
Qed.

(** C1. A schedule description with N event records that [setup_schedule]
    processes without an exception leaves one new [Schedule] in the store:
    it has N listeners, the k-th one created from the k-th event record, and
    its [entity_ids] is the description's [entity_ids] list, in the same
    order. *)
Theorem setup_schedule_round_trip (sd : json) (evs : list json)
    (w w' : World Hass L) (b : bool) :
  subscript sd "events" = Ok (JList evs) ->
  setup_schedule sd w = (Ok b, w') ->
  exists s : Schedule L,
    heap w' = heap w ++ [s] /\
    length (_event_listeners s) = length evs /\
    Forall2 (created_for (length (heap w))) evs (_event_listeners s) /\
    forall ids, subscript sd "entity_ids" = Ok (JList ids) ->
                entity_ids s = JList ids.
Proof.
  intros Hevents Hrun.
  apply setup_schedule_Ok in Hrun
    as (sid & nm & descr & ents & dys & events & evs' & ls &
        _ & _ & _ & Hents & _ & Hev & Hiter & Hls & Hheap & _ & _).
  rewrite Hevents in Hev. inversion Hev. subst events.
  simpl in Hiter. inversion Hiter. subst evs'.
  destruct (add_listeners_fields ls (Schedule_init sid nm descr ents dys))
    as (Hl & He & _ & _). simpl in Hl, He.
  exists (add_listeners ls (Schedule_init sid nm descr ents dys)).
  rewrite Hl. repeat split.
  - exact Hheap.
  - symmetry. eapply Forall2_length. exact Hls.
  - exact Hls.
  - intros ids Hids. rewrite Hents in Hids. inversion Hids. subst ents.
    rewrite He. destruct ids; reflexivity.
Qed.

(** C6 (as the code has it). [setup_schedule] does not stop at building the
    objects: a run that returns has called [schedule(hass)] of every
    listener it attached, once each and in order, so the [hass] it leaves is
    the one those calls produce from the [hass] it was given. *)
Theorem setup_schedule_schedules_listeners (sd : json) (w w' : World Hass L)
    (b : bool) :
  setup_schedule sd w = (Ok b, w') ->
  exists s : Schedule L,
    heap w' = heap w ++ [s] /\
    for_each call_schedule (_event_listeners s)
      {| heap := heap w'; hass := hass w |} = (Ok tt, w').
Proof.
  intros Hrun.
  apply setup_schedule_Ok in Hrun
    as (sid & nm & descr & ents & dys & events & evs' & ls &
        _ & _ & _ & _ & _ & _ & _ & _ & Hheap & Hsched & _).
  destruct (add_listeners_fields ls (Schedule_init sid nm descr ents dys))
    as (Hl & _). simpl in Hl.
  eexists. split; [exact Hheap|]. rewrite Hl. exact Hsched.
Qed.

Lemma setup_all_returns_True (items : list json) :
  forall (w w' : World Hass L) (b : bool),
    setup_all items w = (Ok b, w') -> b = true.
Proof.
  induction items as [|sd items IH]; intros w w' b Hrun; simpl in Hrun.
  - inversion Hrun. reflexivity.
  - apply bind_Ok in Hrun as (ok & w1 & Hsd & Hrun).
    apply setup_schedule_Ok in Hsd
      as (? & ? & ? & ? & ? & ? & ? & ? &
          _ & _ & _ & _ & _ & _ & _ & _ & _ & _ & ->).
    simpl in Hrun. eapply IH. exact Hrun.
Qed.

(** C8. When [setup] raises nothing it returns [True]: [setup_schedule]
    returns [True] whenever it returns, so the [return False] of the loop
    is never taken. *)
Theorem setup_returns_True (w w' : World Hass L) (b : bool) :
  setup w = (Ok b, w') -> b = true.
Proof.
  unfold Scheduler.setup. intros Hrun.
  apply bind_Ok in Hrun as (descriptions & w1 & _ & Hrun).
  apply bind_Ok in Hrun as (items & w2 & _ & Hrun).
  eapply setup_all_returns_True. exact Hrun.
Qed.

(** C2 (as the code has it). When the event records before [ev] are set up
    without an exception and the type of [ev] does not resolve,
    [setup_schedule] raises the error of the lookup itself, unchanged: the
    exception [get_component] raised for that type, or, when the lookup
    returned [None], the [AttributeError] of taking [create] of [None].
    It is the only error there is for the event record under the lookup,
    whatever schedule the record belongs to.  By then the [Schedule] object has been
    constructed and holds, in order, the listeners created from the earlier
    records; none of them has been scheduled, and [hass] is as it was.  The
    loop of [setup] ends with the same error, whatever descriptions
    follow. *)
Theorem setup_schedule_unresolved_type
    (sd sid nm descr ents dys ev : json) (pre post : list json) (e : exn)
    (w w2 : World Hass L) :
  subscript sd "id" = Ok sid ->
  subscript sd "name" = Ok nm ->
  subscript sd "description" = Ok descr ->
  subscript sd "entity_ids" = Ok ents ->
  subscript sd "days" = Ok dys ->
  subscript sd "events" = Ok (JList (pre ++ ev :: post)) ->
  for_each (setup_event (length (heap w))) pre
    {| heap := heap w ++ [Schedule_init sid nm descr ents dys];
       hass := hass w |} = (Ok tt, w2) ->
  unresolved ev e ->
  setup_schedule sd w = (Raise e, w2) /\
  (forall e' : exn, unresolved ev e' -> e' = e) /\
  (forall rest : list json, setup_all (sd :: rest) w = (Raise e, w2)) /\
  hass w2 = hass w /\
  exists (ls : list L) (s : Schedule L),
    heap w2 = heap w ++ [s] /\
    s = add_listeners ls (Schedule_init sid nm descr ents dys) /\
    _event_listeners s = ls /\
    Forall2 (created_for (length (heap w))) pre ls.
Proof.
  intros Hsid Hnm Hdescr Hents Hdys Hevents Hpre Hev.
  assert (Hraise : setup_schedule sd w = (Raise e, w2));
    [|split; [|split; [|split]]].
  - unfold Scheduler.setup_schedule.
    rewrite (bind_step _ _ w sid w) by (unfold lift; rewrite Hsid; reflexivity).
    rewrite (bind_step _ _ w nm w) by (unfold lift; rewrite Hnm; reflexivity).
    rewrite (bind_step _ _ w descr w)
      by (unfold lift; rewrite Hdescr; reflexivity).
    rewrite (bind_step _ _ w ents w)
      by (unfold lift; rewrite Hents; reflexivity).
    rewrite (bind_step _ _ w dys w) by (unfold lift; rewrite Hdys; reflexivity).
    erewrite bind_step by (unfold new_Schedule; reflexivity).
    erewrite bind_step by (unfold lift; rewrite Hevents; reflexivity).
    erewrite bind_step by (unfold lift; simpl; reflexivity).
    apply bind_raise.
    eapply for_each_raise_at; [exact Hpre|].
    apply setup_event_unresolved. exact Hev.
  - exact Hraise.
  - intros e' (ty' & Hty' & Hlook').
    destruct Hev as (ty & Hty & Hlook).
    rewrite Hty in Hty'. inversion Hty'. subst ty'.
    destruct Hlook as [Hl | [Hl ->]], Hlook' as [Hl' | [Hl' ->]];
      congruence.
  - intros rest. simpl. apply bind_raise. exact Hraise.
  - apply setup_events_Ok in Hpre as (ls & Hls & Hh & Hp). simpl in Hh, Hp.
    split; [exact Hh|].
    exists ls, (add_listeners ls (Schedule_init sid nm descr ents dys)).
    split; [|split; [reflexivity|split; [|exact Hls]]].
    + rewrite Hp, alter_app_r_alt, Nat.sub_diag by lia. reflexivity.
    + destruct (add_listeners_fields ls (Schedule_init sid nm descr ents dys))
        as (Hl & _). exact Hl.
Qed.

Lemma for_each_call_schedule_count (count : Hass -> nat) (ls : list L) :
  forall w : World Hass L,
    (forall l h, l ∈ ls ->
       exists h', listener_schedule l (heap w) h = (Ok tt, h') /\
                  count h' = S (count h)) ->
    exists w1, for_each call_schedule ls w = (Ok tt, w1) /\
               heap w1 = heap w /\
               count (hass w1) = (count (hass w) + length ls)%nat.
Proof.
  induction ls as [|l ls IH]; intros w Hone; simpl.
  - exists w. repeat split. lia.
  - destruct (Hone l (hass w)) as (h' & Hl & Hc); [left|].
    assert (Hcall : call_schedule l w
                    = (Ok tt, {| heap := heap w; hass := h' |}))
      by (unfold call_schedule; rewrite Hl; reflexivity).
    rewrite (bind_step _ _ _ _ _ Hcall).
    destruct (IH {| heap := heap w; hass := h' |}) as (w1 & Hrun & Hh & Hn).
    + intros l0 h Hin. apply Hone. right. exact Hin.
    + exists w1. split; [exact Hrun|]. split; [exact Hh|].
      simpl in Hn. lia.
Qed.

(** C3 (as the code has it). [Schedule.schedule] has no guard against a
    second call: when each owned listener registers one trigger each time
    it is scheduled, the first call returns with the trigger count grown by
    the number of listeners, and a second call on the same schedule returns
    as well and grows the count by that number once more. *)
Theorem Schedule_schedule_every_call (count : Hass -> nat) (r : ref)
    (s : Schedule L) (w : World Hass L) :
  heap w !! r = Some s ->
  (forall l h, l ∈ _event_listeners s ->
     exists h', listener_schedule l (heap w) h = (Ok tt, h') /\
                count h' = S (count h)) ->
  exists w1 w2 : World Hass L,
    Schedule_schedule r w = (Ok tt, w1) /\
    heap w1 = heap w /\
    count (hass w1) = (count (hass w) + length (_event_listeners s))%nat /\
    Schedule_schedule r w1 = (Ok tt, w2) /\
    heap w2 = heap w /\
    count (hass w2) = (count (hass w) + 2 * length (_event_listeners s))%nat.
Proof.
  intros Hs Hone.
  destruct (for_each_call_schedule_count count (_event_listeners s) w Hone)
    as (w1 & Hrun1 & Hh1 & Hc1).
  assert (Hone1 : forall l h, l ∈ _event_listeners s ->
            exists h', listener_schedule l (heap w1) h = (Ok tt, h') /\
                       count h' = S (count h))
    by (rewrite Hh1; exact Hone).
  destruct (for_each_call_schedule_count count (_event_listeners s) w1 Hone1)
    as (w2 & Hrun2 & Hh2 & Hc2).
  exists w1, w2. unfold Schedule_schedule.
  rewrite (bind_step _ _ w s w) by (apply deref_found; exact Hs).
  rewrite (bind_step _ _ w1 s w1)
    by (apply deref_found; rewrite Hh1; exact Hs).
  repeat split; try assumption; try congruence. lia.
Qed.

End SchedulerFacts.

(** C7. The two methods of the base class [EventListener] do nothing: called
    on any listener, with any store of schedules and any [hass], [schedule]
    and [execute] return [None] and leave the store and [hass] as they
    were. *)
Theorem EventListener_methods_do_nothing (Hass : Type)
    (self : Scheduler.EventListener)
    (w : Scheduler.World Hass Scheduler.EventListener) :
  Scheduler.call_schedule self w = (Py.Ok tt, w) /\
  Scheduler.call_execute self w = (Py.Ok tt, w) /\
  Scheduler.EventListener_schedule self (Scheduler.heap w) (Scheduler.hass w)
    = (Py.Ok tt, Scheduler.hass w) /\
  Scheduler.EventListener_execute self (Scheduler.heap w) (Scheduler.hass w)
    = (Py.Ok tt, Scheduler.hass w).
Proof.
  destruct w as [store h]. repeat split.
Qed.

(** ** The statements at the sample inputs *)

Section SchedulerSamples.
  Import Py Scheduler Clock Sample.

Lemma insert_trigger_length {A : Type} (t : Trigger A) (l : list (Trigger A)) :
  length (insert_trigger t l) = S (length l).
Proof.
  induction l as [|u l IH]; simpl; [reflexivity|].
  destruct (fireAt u <=? fireAt t)%Z; simpl; [rewrite IH|]; reflexivity.
Qed.

Lemma setup_schedule_round_trip_witness :
  exists s : Schedule TimeEventListener,
    heap (snd (setup_schedule lookup repr morning w0)) = heap w0 ++ [s] /\
    length (_event_listeners s) = length [time_event] /\
    Forall2 (created_for lookup repr (length (heap w0)))
      [time_event] (_event_listeners s) /\
    forall ids, subscript morning "entity_ids" = Ok (JList ids) ->
                entity_ids s = JList ids.
Proof.
  apply (setup_schedule_round_trip lookup repr morning [time_event] w0 _ true).
  - reflexivity.
  - reflexivity.
Defined.

Lemma setup_returns_True_witness :
  fst (setup lookup repr schedule_file w0) = Ok true /\ true = true.
Proof.
  split; [reflexivity|].
  apply (setup_returns_True lookup repr schedule_file w0
           (snd (setup lookup repr schedule_file w0)) true).
  reflexivity.
Defined.

(** The description [night] has the unknown type [foo] in its second event.
    With a lookup that raises, the error carries the looked-up name only;
    with a lookup that returns [None], it is the [AttributeError] of
    [create] and carries neither the type nor the id.  Either way the store
    holds the schedule that was constructed, with the listener of the first
    event. *)
Lemma setup_schedule_unresolved_counterexample :
  setup_schedule lookup repr night w0 =
  (Raise (PluginResolutionError "scheduler.foo"),
   {| heap := [ {| schedule_id := JStr "night";
                   name := JStr "Night";
                   description := JStr "All off";
                   entity_ids := JList [JStr "group.all_lights"];
                   days := JList [JInt 0; JInt 2; JInt 4];
                   _event_listeners := [at_seven] |} ];
      hass := empty_clock |}) /\
  setup_schedule lookup_or_none repr night w0 =
  (Raise (AttributeError "create"),
   {| heap := [ {| schedule_id := JStr "night";
                   name := JStr "Night";
                   description := JStr "All off";
                   entity_ids := JList [JStr "group.all_lights"];
                   days := JList [JInt 0; JInt 2; JInt 4];
                   _event_listeners := [at_seven] |} ];
      hass := empty_clock |}).
Proof. split; reflexivity. Qed.

Lemma setup_schedule_unresolved_type_witness :
  setup_schedule lookup_or_none repr night w0 =
    (Raise (AttributeError "create"),
     snd (setup_schedule lookup_or_none repr night w0)) /\
  (forall e' : exn,
     unresolved lookup_or_none repr foo_event e' ->
     e' = AttributeError "create") /\
  (forall rest : list json,
     setup_all lookup_or_none repr (night :: rest) w0 =
     (Raise (AttributeError "create"),
      snd (setup_schedule lookup_or_none repr night w0))) /\
  hass (snd (setup_schedule lookup_or_none repr night w0)) = hass w0 /\
  exists (ls : list TimeEventListener) (s : Schedule TimeEventListener),
    heap (snd (setup_schedule lookup_or_none repr night w0))
    = heap w0 ++ [s] /\
    s = add_listeners ls
          (Schedule_init (JStr "night") (JStr "Night") (JStr "All off")
             (JList [JStr "group.all_lights"])
             (JList [JInt 0; JInt 2; JInt 4])) /\
    _event_listeners s = ls /\
    Forall2 (created_for lookup_or_none repr (length (heap w0)))
      [time_event] ls.
Proof.
  apply (setup_schedule_unresolved_type lookup_or_none repr night
           (JStr "night") (JStr "Night") (JStr "All off")
           (JList [JStr "group.all_lights"]) (JList [JInt 0; JInt 2; JInt 4])
           foo_event [time_event] [] (AttributeError "create") w0);
    try reflexivity.
  exists (JStr "foo"). split; [reflexivity | right; split; reflexivity].
Defined.

(** On the sample schedule a second call of [schedule] returns like the
    first and leaves two pending triggers for the one listener; and a
    listener of the base class registers none at all. *)
Lemma Schedule_schedule_twice_counterexample :
  fst (Schedule_schedule 0%nat w_morning) = Ok tt /\
  pending_count (hass (snd (Schedule_schedule 0%nat w_morning))) = 1%nat /\
  fst (Schedule_schedule 0%nat (snd (Schedule_schedule 0%nat w_morning))) = Ok tt /\
  pending_count
    (hass (snd (Schedule_schedule 0%nat (snd (Schedule_schedule 0%nat w_morning)))))
  = 2%nat /\
  fst (Schedule_schedule 0%nat w_base) = Ok tt /\
  pending_count (hass (snd (Schedule_schedule 0%nat w_base))) = 0%nat.
Proof. repeat split. Qed.

Lemma Schedule_schedule_every_call_witness :
  exists w1 w2 : World (ClockState TimeEventListener) TimeEventListener,
    Schedule_schedule 0%nat w_morning = (Ok tt, w1) /\
    heap w1 = heap w_morning /\
    pending_count (hass w1) =
    (pending_count (hass w_morning) + length (_event_listeners morning_schedule))%nat /\
    Schedule_schedule 0%nat w1 = (Ok tt, w2) /\
    heap w2 = heap w_morning /\
    pending_count (hass w2) =
    (pending_count (hass w_morning)
     + 2 * length (_event_listeners morning_schedule))%nat.
Proof.
  apply (Schedule_schedule_every_call pending_count 0%nat morning_schedule
           w_morning).
  - reflexivity.
  - intros l h Hl. apply list_elem_of_singleton in Hl. subst l.
    eexists. split; [reflexivity|]. apply insert_trigger_length.
Defined.

(** C5 (the code at the failing input). The description
    [morning_without_days] has every key but [days].  [setup_schedule]
    raises [KeyError('days')] on it before any schedule is constructed,
    although the constructor, called without a [days] argument (that is, with
    [None]), gives all seven days, as it does for the same description with
    [days] set to [null]. *)
Theorem setup_schedule_days_omitted :
  setup_schedule lookup repr morning_without_days w0
  = (Raise (KeyError "days"), w0) /\
  days (Schedule_init (JStr "morning") (JStr "Morning lights")
          (JStr "Kitchen light at seven")
          (JList [JStr "light.kitchen"; JStr "light.hall"]) JNull
        : Schedule TimeEventListener)
  = JList [JInt 0; JInt 1; JInt 2; JInt 3; JInt 4; JInt 5; JInt 6] /\
  fst (setup_schedule lookup repr morning w0) = Ok true /\
  List.map days (heap (snd (setup_schedule lookup repr morning w0)))
  = [JList [JInt 0; JInt 1; JInt 2; JInt 3; JInt 4; JInt 5; JInt 6]].
Proof. repeat split. Qed.

(** [setup] on a file with the one description [morning] returns [True]
    and leaves a trigger registered with the clock that had none. *)
Lemma setup_registers_trigger_counterexample :
  fst (setup lookup repr schedule_file w0) = Ok true /\
  pending_count (hass w0) = 0%nat /\
  pending (hass (snd (setup lookup repr schedule_file w0))) =
  [ {| fireAt := 25200; weekdayGate := [0; 1; 2; 3; 4; 5; 6];
       handler := at_seven |} ].
Proof. repeat split. Qed.

Lemma setup_schedule_schedules_listeners_witness :
  exists s : Schedule TimeEventListener,
    heap (snd (setup_schedule lookup repr morning w0)) = heap w0 ++ [s] /\
    for_each call_schedule (_event_listeners s)
      {| heap := heap (snd (setup_schedule lookup repr morning w0));
         hass := hass w0 |}
    = (Ok tt, snd (setup_schedule lookup repr morning w0)).
Proof.
  apply (setup_schedule_schedules_listeners lookup repr morning w0 _ true).
  reflexivity.
Defined.

End SchedulerSamples.

(** * Properties of the Modbus binary sensors *)

Section ModbusFacts.
  Import Py Modbus.

Lemma fold_append_map {A B : Type} (f : A -> B) (l : list A) :
  forall acc : list B,
    fold_left (fun acc x => acc ++ [f x]) l acc = acc ++ List.map f l.
Proof.
  induction l as [|x l IH]; intros acc; simpl.
  - rewrite app_nil_r. reflexivity.
  - rewrite IH, <- app_assoc. reflexivity.
Qed.

Lemma range_length (a b : Z) : length (range a b) = Z.to_nat (b - a).
Proof. unfold range. rewrite length_map, length_seq. reflexivity. Qed.

Lemma range_lookup (a b : Z) (k : nat) :
  (k < Z.to_nat (b - a))%nat -> range a b !! k = Some (a + Z.of_nat k).
Proof.
  intros Hk. unfold range.
  change (List.map ?f ?l) with (f <$> l).
  rewrite list_lookup_fmap, lookup_seq_lt by exact Hk. reflexivity.
Qed.

(** The generated name of the sensor number [i]. *)
Lemma extend_names_eq (sensor_name : string) (count : option Z)
    (names : option (list string)) :
  extend_names sensor_name count names =
  default [] names ++
  List.map (fun i => String.append sensor_name (String.append "_" (str_of_Z i)))
    (range (Z.of_nat (length (default [] names)) + 1) (default 0 count + 1)).
Proof.
  unfold extend_names. rewrite fold_append_map.
  destruct count, names; reflexivity.
Qed.

Lemma _create_virtual_eq (sensor_name : string) (device_class : option string)
    (count : option Z) (names : option (list string)) :
  _create_virtual sensor_name device_class count names =
  List.map (fun name => virtualBinarySensor_init name device_class)
    (extend_names sensor_name count names).
Proof. unfold _create_virtual. rewrite fold_append_map. reflexivity. Qed.

(** C10. With a [None] count read as 0 and [None] names as the empty list,
    [_create_virtual] returns [max(count, len(names))] virtual sensors; the
    first [len(names)] of them carry the given names in order, and the
    sensor at position [i] (counting from 1) beyond them, up to [count], is
    named [sensor_name_i]. *)
Theorem _create_virtual_names (sensor_name : string)
    (device_class : option string) (count : option Z)
    (names : option (list string)) :
  let c := default 0 count in
  let ns := default [] names in
  let sensors := _create_virtual sensor_name device_class count names in
  length sensors = Z.to_nat (Z.max c (Z.of_nat (length ns))) /\
  (forall (k : nat) (nm : string),
     ns !! k = Some nm -> _name <$> sensors !! k = Some nm) /\
  (forall i : Z,
     Z.of_nat (length ns) + 1 <= i <= c ->
     _name <$> sensors !! Z.to_nat (i - 1) =
     Some (String.append sensor_name (String.append "_" (str_of_Z i)))) /\
  Forall (fun v => _device_class v = device_class /\
                   _state v = VNone /\ _available v = true) sensors.
Proof.
  intros c ns sensors. subst sensors.
  rewrite _create_virtual_eq, extend_names_eq. fold c ns. clearbody c ns.
  set (gen := fun i : Z =>
                String.append sensor_name (String.append "_" (str_of_Z i))).
  change (List.map ?f ?l) with (f <$> l).
  repeat split.
  - rewrite length_fmap, length_app, length_fmap, range_length. lia.
  - intros k nm Hk. rewrite list_lookup_fmap, lookup_app_l
      by (eapply lookup_lt_Some; exact Hk).
    rewrite Hk. reflexivity.
  - intros i [Hlo Hhi]. rewrite list_lookup_fmap, lookup_app_r by lia.
    change (List.map gen ?l) with (gen <$> l).
    rewrite list_lookup_fmap, range_lookup by lia.
    replace (Z.of_nat (length ns) + 1
             + Z.of_nat (Z.to_nat (i - 1) - length ns)) with i by lia.
    reflexivity.
  - apply Forall_fmap, Forall_forall. intros nm _. repeat split.
Qed.

Example _create_virtual_sample :
  List.map _name (_create_virtual "door" None (Some 3) (Some ["front"%string]))
  = ["front"; "door_2"; "door_3"]%string.
Proof. reflexivity. Qed.

Lemma broadcast_to_master (rs : list vref) :
  forall m : ModbusBinarySensor,
    _value (broadcast_to rs m) = _value m /\
    master_available (broadcast_to rs m) = master_available m /\
    _virtual_sensors (broadcast_to rs m) = _virtual_sensors m.
Proof.
  induction rs as [|r rs IH]; intros m; simpl; [repeat split|].
  destruct (IH (set_from_master r (_value m) (master_available m) m))
    as (Hv & Ha & Hs).
  unfold broadcast_to in *. rewrite Hv, Ha, Hs. repeat split.
Qed.

Lemma broadcast_to_snoc (rs : list vref) (r : vref) (m : ModbusBinarySensor) :
  broadcast_to (rs ++ [r]) m =
  set_from_master r (_value m) (master_available m) (broadcast_to rs m).
Proof.
  unfold broadcast_to at 1. rewrite fold_left_app. simpl.
  fold (broadcast_to rs m).
  destruct (broadcast_to_master rs m) as (Hv & Ha & _).
  rewrite Hv, Ha. reflexivity.
Qed.

Lemma broadcast_eq (m : ModbusBinarySensor) :
  broadcast m = broadcast_to (default [] (_virtual_sensors m)) m.
Proof.
  unfold broadcast, broadcast_to.
  destruct (_virtual_sensors m) as [[|r rs]|]; reflexivity.
Qed.

(** At the sample master the hub gives [None]: both virtual sensors end
    with the restored value and unavailable. *)
Example async_update_sample :
  List.map (fun v => (_state v, _available v))
    (store (snd (async_update None Sample.master)))
  = [(VBool true, false); (VBool true, false)].
Proof. reflexivity. Qed.

End ModbusFacts.

(** * Properties of the scheduler clock *)

Section ClockFacts.
  Import Py Scheduler Clock.
  Context {L : Type} `{HandlerClass L}.
  Variable weekday : Instant -> Z.

  Abbreviation fire := (fire weekday).
  Abbreviation tick := (tick weekday).
  Abbreviation run := (run weekday).

Lemma insert_trigger_perm (t : Trigger L) (l : list (Trigger L)) :
  insert_trigger t l ≡ₚ t :: l.
Proof.
  induction l as [|u l IH]; simpl; [reflexivity|].
  destruct (fireAt u <=? fireAt t); [|reflexivity].
  rewrite IH. apply Permutation_swap.
Qed.

Lemma fire_pending (t_now : Instant) (c : ClockState L) (t : Trigger L) :
  pending (fire t_now c t) ≡ₚ advance t_now t :: pending c.
Proof.
  unfold Clock.fire, registerTrigger. simpl.
  rewrite insert_trigger_perm.
  destruct (in_gate (weekday t_now) (weekdayGate t)); reflexivity.
Qed.

Lemma fire_all_pending (t_now : Instant) (due : list (Trigger L)) :
  forall c : ClockState L,
    pending (fold_left (fire t_now) due c)
    ≡ₚ List.map (advance t_now) due ++ pending c.
Proof.
  induction due as [|t due IH]; intros c; simpl; [reflexivity|].
  rewrite IH, fire_pending. symmetry. apply Permutation_middle.
Qed.

(** A tick loses no trigger and adds none: the due ones come back with
    their next fire time, the others stay. *)
Lemma tick_pending (t_now : Instant) (c : ClockState L) :
  pending (tick t_now c)
  ≡ₚ List.map (advance t_now) (List.filter (is_due t_now) (pending c))
     ++ List.filter (fun t => negb (is_due t_now t)) (pending c).
Proof. unfold Clock.tick. rewrite fire_all_pending. reflexivity. Qed.

Lemma fire_executions (r : ref) (t_now : Instant) (c : ClockState L)
    (t : Trigger L) :
  (scheduleRef (handler t) = r -> weekdayGate t = []) ->
  executions_of r (executed (fire t_now c t)) = executions_of r (executed c).
Proof.
  intros Hgate. unfold Clock.fire, registerTrigger. simpl.
  destruct (in_gate (weekday t_now) (weekdayGate t)) eqn:Hin; [|reflexivity].
  simpl. destruct (Nat.eqb_spec (scheduleRef (handler t)) r) as [Hr|Hr];
    [|reflexivity].
  rewrite (Hgate Hr) in Hin. discriminate Hin.
Qed.

Lemma fire_all_executions (r : ref) (t_now : Instant) (due : list (Trigger L)) :
  forall c : ClockState L,
    gate_closed r due ->
    executions_of r (executed (fold_left (fire t_now) due c))
    = executions_of r (executed c).
Proof.
  induction due as [|t due IH]; intros c Hdue; simpl; [reflexivity|].
  rewrite IH.
  - apply fire_executions. apply Hdue. left.
  - intros u Hu. apply Hdue. right. exact Hu.
Qed.

Lemma tick_executions (r : ref) (t_now : Instant) (c : ClockState L) :
  gate_closed r (pending c) ->
  executions_of r (executed (tick t_now c)) = executions_of r (executed c).
Proof.
  intros Hc. unfold Clock.tick. rewrite fire_all_executions; [reflexivity|].
  intros t Ht. apply Hc.
  apply list_elem_of_In, filter_In in Ht as [Ht _].
  apply list_elem_of_In. exact Ht.
Qed.

Lemma tick_gate_closed (r : ref) (t_now : Instant) (c : ClockState L) :
  gate_closed r (pending c) -> gate_closed r (pending (tick t_now c)).
Proof.
  intros Hc t Ht. rewrite tick_pending in Ht.
  apply elem_of_app in Ht as [Ht|Ht].
  - apply list_elem_of_In, in_map_iff in Ht as (u & <- & Hu).
    apply filter_In in Hu as [Hu _]. simpl.
    apply Hc, list_elem_of_In. exact Hu.
  - apply list_elem_of_In, filter_In in Ht as [Ht _].
    apply Hc, list_elem_of_In. exact Ht.
Qed.

Lemma run_gate_closed (r : ref) (times : list Instant) :
  forall c : ClockState L,
    gate_closed r (pending c) ->
    gate_closed r (pending (run times c)) /\
    executions_of r (executed (run times c)) = executions_of r (executed c).
Proof.
  induction times as [|t_now times IH]; intros c Hc; simpl; [split; auto|].
  destruct (IH (tick t_now c)) as [Hg He].
  - apply tick_gate_closed. exact Hc.
  - split; [exact Hg|]. rewrite He. apply tick_executions. exact Hc.
Qed.

Lemma tick_advances (t_now : Instant) (c : ClockState L) (t : Trigger L) :
  t ∈ pending c -> fireAt t <= t_now -> advance t_now t ∈ pending (tick t_now c).
Proof.
  intros Ht Hdue. rewrite tick_pending. apply elem_of_app. left.
  apply list_elem_of_In, in_map, filter_In. split.
  - apply list_elem_of_In. exact Ht.
  - unfold is_due. apply Z.leb_le. exact Hdue.
Qed.

(** A handler that registers gets a trigger whose gate is the active days
    of its schedule. *)
Lemma register_gate (h : L) (store : list (Schedule L)) (s : Schedule L)
    (c : ClockState L) :
  store !! scheduleRef h = Some s ->
  fst (register h store c) = Ok tt /\
  pending (snd (register h store c))
  ≡ₚ {| fireAt := computeNextFireTime h (now c);
        weekdayGate := active_days (days s);
        handler := h |} :: pending c.
Proof.
  intros Hs. unfold register. rewrite Hs. simpl.
  split; [reflexivity | apply insert_trigger_perm].
Qed.

(** C4. For a schedule whose set of active days is empty, and triggers
    whose gate is that set: however the clock is ticked, no [execute] of a
    handler of the schedule is ever invoked; and at every tick each of its
    triggers that is due is back among the pending triggers with the fire
    time that [computeNextFireTime] gives for the instant of the tick. *)
Theorem empty_days_skip_and_reschedule (store : list (Schedule L)) (r : ref)
    (s : Schedule L) (c : ClockState L) (times : list Instant) :
  store !! r = Some s ->
  active_days (days s) = [] ->
  (forall t, t ∈ pending c -> scheduleRef (handler t) = r ->
             weekdayGate t = active_days (days s)) ->
  executions_of r (executed (run times c)) = executions_of r (executed c) /\
  forall (t_now : Instant) (t : Trigger L),
    t ∈ pending (run times c) ->
    scheduleRef (handler t) = r ->
    fireAt t <= t_now ->
    advance t_now t ∈ pending (tick t_now (run times c)) /\
    fireAt (advance t_now t) = computeNextFireTime (handler t) t_now /\
    executions_of r (executed (tick t_now (run times c)))
    = executions_of r (executed c).
Proof.
  intros _ Hempty Hgate.
  assert (Hc : gate_closed r (pending c)).
  { intros t Ht Hr. rewrite (Hgate t Ht Hr). exact Hempty. }
  destruct (run_gate_closed r times c Hc) as [Hg He].
  split; [exact He|].
  intros t_now t Ht Hr Hdue. split; [|split].
  - apply tick_advances; assumption.
  - reflexivity.
  - rewrite tick_executions by exact Hg. exact He.
Qed.

End ClockFacts.

Section ClockSamples.
  Import Py Scheduler Clock Sample.

(** Two days of the clock for the schedule with no active day: the trigger
    of seven o'clock is moved on twice and nothing is executed. *)
Example never_schedule_two_days :
  run unix_weekday [25200; 111600] never_clock
  = {| now := 111600;
       pending := [ {| fireAt := 198000; weekdayGate := [];
                       handler := at_seven |} ];
       executed := [] |}.
Proof. reflexivity. Qed.

(** The same two days for the schedule that is active every day. *)
Example morning_schedule_two_days :
  executed (run unix_weekday [25200; 111600]
              (snd (register at_seven [morning_schedule] empty_clock)))
  = [(at_seven, 111600, Ok tt); (at_seven, 25200, Ok tt)].
Proof. reflexivity. Qed.

Lemma empty_days_skip_and_reschedule_witness :
  executions_of 0%nat (executed (run unix_weekday [25200; 111600] never_clock))
  = executions_of 0%nat (executed never_clock) /\
  forall (t_now : Instant) (t : Trigger TimeEventListener),
    t ∈ pending (run unix_weekday [25200; 111600] never_clock) ->
    scheduleRef (handler t) = 0%nat ->
    fireAt t <= t_now ->
    advance t_now t
    ∈ pending (tick unix_weekday t_now
                 (run unix_weekday [25200; 111600] never_clock)) /\
    fireAt (advance t_now t) = computeNextFireTime (handler t) t_now /\
    executions_of 0%nat
      (executed (tick unix_weekday t_now
                   (run unix_weekday [25200; 111600] never_clock)))
    = executions_of 0%nat (executed never_clock).
Proof.
  apply (empty_days_skip_and_reschedule unix_weekday [never_schedule] 0%nat
           never_schedule never_clock [25200; 111600]).
  - reflexivity.
  - reflexivity.
  - intros t Ht _. apply list_elem_of_singleton in Ht. subst t. reflexivity.
Defined.

End ClockSamples.

(** * Further properties of the scheduler component *)

Section SchedulerMore.
  Import Py Scheduler.
  Context {Hass L : Type} `{EventListenerClass Hass L}.
  Variable get_component : string -> result (option (Plugin L)).
  Variable py_repr : json -> string.
  Variable load_schedule_file : Hass -> result json.

  Abbreviation setup_event := (setup_event get_component py_repr).
  Abbreviation setup_schedule := (setup_schedule get_component py_repr).
  Abbreviation setup_all := (setup_all get_component py_repr).
  Abbreviation setup := (setup get_component py_repr load_schedule_file).
  Abbreviation event_fails := (event_fails get_component py_repr).

Lemma bind_lift_Ok {A B : Type} (a : A) (k : A -> M Hass L B)
    (w : World Hass L) (r : result A) :
  r = Ok a -> bind (lift r) k w = k a w.
Proof. intros ->. reflexivity. Qed.

Lemma bind_lift_Raise {A B : Type} (e : exn) (k : A -> M Hass L B)
    (w : World Hass L) (r : result A) :
  r = Raise e -> bind (lift r) k w = (Raise e, w).
Proof. intros ->. reflexivity. Qed.

Lemma subscript_dict (d : list (string * json)) (k : string) :
  subscript (JDict d) k =
  match dict_get k d with Some x => Ok x | None => Raise (KeyError k) end.
Proof. reflexivity. Qed.

(** X1. A description that lacks one of the keys read for the constructor
    makes [setup_schedule] raise [KeyError] for the first one it lacks, in
    the order [id], [name], [description], [entity_ids], [days]; nothing has
    been constructed or scheduled by then. *)
Theorem setup_schedule_missing_key (d : list (string * json)) (k : string)
    (w : World Hass L) :
  List.find (lacks d) constructor_keys = Some k ->
  setup_schedule (JDict d) w = (Raise (KeyError k), w).
Proof.
  unfold constructor_keys, lacks, Scheduler.setup_schedule. simpl.
  repeat rewrite subscript_dict.
  destruct (dict_get "id" d);
    [|intros [= <-]; reflexivity].
  destruct (dict_get "name" d);
    [|intros [= <-]; reflexivity].
  destruct (dict_get "description" d);
    [|intros [= <-]; reflexivity].
  destruct (dict_get "entity_ids" d);
    [|intros [= <-]; reflexivity].
  destruct (dict_get "days" d);
    [|intros [= <-]; reflexivity].
  discriminate.
Qed.

Lemma setup_schedule_not_a_dict (sd : json) (w : World Hass L) :
  (forall d, sd <> JDict d) -> setup_schedule sd w = (Raise TypeError, w).
Proof.
  intros Hsd. destruct sd; try reflexivity.
  exfalso. eapply Hsd. reflexivity.
Qed.

(** X2. A schedule file that holds one JSON object with entries, instead of
    a list of them, makes [setup] raise [TypeError] with nothing
    constructed: the loop runs over the keys of the object, and a key is no
    dict. *)
Theorem setup_file_is_an_object (k : string) (v : json)
    (d : list (string * json)) (w : World Hass L) :
  load_schedule_file (hass w) = Ok (JDict ((k, v) :: d)) ->
  setup w = (Raise TypeError, w).
Proof.
  intros Hload. unfold Scheduler.setup.
  unfold bind at 1. rewrite Hload.
  rewrite (bind_lift_Ok (List.map (fun kv => JStr (fst kv)) ((k, v) :: d)))
    by reflexivity.
  simpl. apply bind_raise. apply setup_schedule_not_a_dict. discriminate.
Qed.

(** With the five entries there, [setup_schedule] constructs the schedule
    and goes on with the events. *)
Lemma setup_schedule_from_fields (sd sid nm descr ents dys : json)
    (w : World Hass L) :
  has_fields sd sid nm descr ents dys ->
  setup_schedule sd w =
  bind (lift (subscript sd "events")) (fun events =>
  bind (lift (iter events)) (fun items =>
  bind (for_each (setup_event (length (heap w))) items) (fun _ =>
  bind (Schedule_schedule (length (heap w))) (fun _ => ret true))))
    (constructed sid nm descr ents dys w).
Proof.
  intros (Hsid & Hnm & Hdescr & Hents & Hdys).
  unfold Scheduler.setup_schedule.
  rewrite (bind_lift_Ok sid) by exact Hsid.
  rewrite (bind_lift_Ok nm) by exact Hnm.
  rewrite (bind_lift_Ok descr) by exact Hdescr.
  rewrite (bind_lift_Ok ents) by exact Hents.
  rewrite (bind_lift_Ok dys) by exact Hdys.
  reflexivity.
Qed.

Lemma deref_constructed (sid nm descr ents dys : json) (w : World Hass L) :
  heap (constructed sid nm descr ents dys w) !! length (heap w)
  = Some (Schedule_init sid nm descr ents dys).
Proof.
  unfold constructed. simpl.
  rewrite lookup_app_r, Nat.sub_diag by lia. reflexivity.
Qed.

(** X3. When the five constructor entries are there but [events] is
    missing, or is a value a loop cannot run over (a number, a boolean,
    [null]), [setup_schedule] raises [KeyError('events')] or [TypeError]
    only after the [Schedule] has been constructed: the store has the new
    schedule, without listeners, and [hass] is untouched. *)
Theorem setup_schedule_bad_events (sd sid nm descr ents dys : json) (e : exn)
    (w : World Hass L) :
  has_fields sd sid nm descr ents dys ->
  subscript sd "events" = Raise e \/
  (exists v, subscript sd "events" = Ok v /\ iter v = Raise e) ->
  setup_schedule sd w = (Raise e, constructed sid nm descr ents dys w).
Proof.
  intros Hf Hev. rewrite (setup_schedule_from_fields _ _ _ _ _ _ _ Hf).
  destruct Hev as [Hev | (v & Hev & Hit)].
  - apply bind_lift_Raise. exact Hev.
  - rewrite (bind_lift_Ok v) by exact Hev.
    apply bind_lift_Raise. exact Hit.
Qed.

(** X4. A description whose [events] is empty (an empty list, dict or
    string) is accepted: [setup_schedule] returns [True], the store gets the
    new schedule without listeners, and [hass] is untouched. *)
Theorem setup_schedule_no_events (sd sid nm descr ents dys v : json)
    (w : World Hass L) :
  has_fields sd sid nm descr ents dys ->
  subscript sd "events" = Ok v ->
  iter v = Ok [] ->
  setup_schedule sd w = (Ok true, constructed sid nm descr ents dys w).
Proof.
  intros Hf Hev Hit. rewrite (setup_schedule_from_fields _ _ _ _ _ _ _ Hf).
  rewrite (bind_lift_Ok v) by exact Hev.
  rewrite (bind_lift_Ok []) by exact Hit.
  simpl. unfold Schedule_schedule.
  erewrite bind_step by (unfold ret; reflexivity).
  erewrite bind_step.
  2:{ erewrite bind_step by (apply deref_found, deref_constructed).
      reflexivity. }
  reflexivity.
Qed.

Lemma setup_event_fails (r : ref) (ev : json) (e : exn) (w : World Hass L) :
  event_fails r (heap w) ev e -> setup_event r ev w = (Raise e, w).
Proof.
  intros [Hty | (ty & p & Hty & Hp & Hc)]; unfold Scheduler.setup_event.
  - apply bind_lift_Raise. exact Hty.
  - rewrite (bind_lift_Ok ty) by exact Hty.
    rewrite (bind_lift_Ok (Some p)) by exact Hp.
    apply bind_raise. simpl. rewrite Hc. reflexivity.
Qed.

(** X5. When the event records before [ev] are set up without an exception
    and [ev] itself fails (it is no dict, it has no [type], or the factory
    of its module raises), [setup_schedule] raises that error unchanged.
    The records after [ev] are not looked at, no listener has been
    scheduled, and [hass] is as it was. *)
Theorem setup_schedule_event_fails
    (sd sid nm descr ents dys v ev : json) (pre post : list json) (e : exn)
    (w w2 : World Hass L) :
  has_fields sd sid nm descr ents dys ->
  subscript sd "events" = Ok v ->
  iter v = Ok (pre ++ ev :: post) ->
  for_each (setup_event (length (heap w))) pre
    (constructed sid nm descr ents dys w) = (Ok tt, w2) ->
  event_fails (length (heap w)) (heap w2) ev e ->
  setup_schedule sd w = (Raise e, w2) /\ hass w2 = hass w.
Proof.
  intros Hf Hev Hit Hpre Hfail. split.
  - rewrite (setup_schedule_from_fields _ _ _ _ _ _ _ Hf).
    rewrite (bind_lift_Ok v) by exact Hev.
    rewrite (bind_lift_Ok (pre ++ ev :: post)) by exact Hit.
    apply bind_raise. eapply for_each_raise_at; [exact Hpre|].
    apply setup_event_fails. exact Hfail.
  - apply (setup_events_Ok get_component py_repr) in Hpre
      as (ls & _ & Hh & _). exact Hh.
Qed.

Lemma add_listeners_name (ls : list L) (s : Schedule L) :
  name (add_listeners ls s) = name s /\
  description (add_listeners ls s) = description s.
Proof.
  revert s. induction ls as [|l ls IH]; intros s; [split; reflexivity|].
  destruct (IH (append_listener l s)) as [Hn Hd].
  unfold add_listeners in *. simpl. rewrite Hn, Hd. split; reflexivity.
Qed.

(** X6. The schedule that [setup_schedule] leaves in the store has the
    description's [id], [name] and [description] as they were given, its
    [days] when that is a non-empty list (any true value), and an empty
    [entity_ids] list when the description's is [null] or empty. *)
Theorem setup_schedule_keeps_fields (sd : json) (w w' : World Hass L)
    (b : bool) :
  setup_schedule sd w = (Ok b, w') ->
  exists s : Schedule L,
    heap w' = heap w ++ [s] /\
    subscript sd "id" = Ok (schedule_id s) /\
    subscript sd "name" = Ok (name s) /\
    subscript sd "description" = Ok (description s) /\
    (forall dys, subscript sd "days" = Ok dys -> truthy dys = true ->
                 days s = dys) /\
    (forall ents, subscript sd "entity_ids" = Ok ents ->
                  truthy ents = false -> entity_ids s = JList []).
Proof.
  intros Hrun.
  apply (setup_schedule_Ok get_component py_repr) in Hrun
    as (sid & nm & descr & ents & dys & events & evs & ls &
        Hsid & Hnm & Hdescr & Hents & Hdys & _ & _ & _ & Hheap & _ & _).
  destruct (add_listeners_fields ls (Schedule_init sid nm descr ents dys))
    as (_ & He & Hd & Hi).
  destruct (add_listeners_name ls (Schedule_init sid nm descr ents dys : Schedule L))
    as [Hn Hde].
  eexists. split; [exact Hheap|].
  rewrite Hi, Hn, Hde, Hd, He. simpl.
  repeat split; try assumption.
  - intros dys' Hdys' Ht. rewrite Hdys in Hdys'. inversion Hdys'. subst dys'.
    unfold py_or. rewrite Ht. reflexivity.
  - intros ents' Hents' Ht. rewrite Hents in Hents'. inversion Hents'.
    subst ents'. unfold py_or. rewrite Ht. reflexivity.
Qed.

(** X7. A run of the loop of [setup] that returns has added exactly one
    schedule per description to the store, in the order of the file, each
    with the [id] of its description; the schedules that were there before
    are still there, unchanged.  Ids are not compared: two descriptions
    with the same [id] give two schedules. *)
Theorem setup_all_one_schedule_each (defs : list json) :
  forall (w w' : World Hass L) (b : bool),
    setup_all defs w = (Ok b, w') ->
    exists ss : list (Schedule L),
      heap w' = heap w ++ ss /\
      Forall2 (fun sd s => subscript sd "id" = Ok (schedule_id s)) defs ss.
Proof.
  induction defs as [|sd defs IH]; intros w w' b Hrun; simpl in Hrun.
  - inversion Hrun. subst. exists []. rewrite app_nil_r. split; constructor.
  - apply bind_Ok in Hrun as (ok & w1 & Hsd & Hrun).
    apply (setup_schedule_Ok get_component py_repr) in Hsd
      as (sid & nm & descr & ents & dys & ? & ? & ls &
          Hsid & _ & _ & _ & _ & _ & _ & _ & Hheap & _ & ->).
    destruct (add_listeners_fields ls (Schedule_init sid nm descr ents dys))
      as (_ & _ & _ & Hi).
    simpl in Hrun. apply IH in Hrun as (ss & Hss & Hids).
    eexists (_ :: ss). split.
    + rewrite Hss, Hheap, <- app_assoc. reflexivity.
    + constructor; [|exact Hids]. rewrite Hi. exact Hsid.
Qed.

(** One round of the loop over the events leaves the store as it was or
    appends a listener to the schedule at [r]. *)
Lemma setup_event_heap (r : ref) (ev : json) (w : World Hass L) :
  heap (snd (setup_event r ev w)) = heap w \/
  exists l, heap (snd (setup_event r ev w))
            = alter (append_listener l) r (heap w).
Proof.
  unfold Scheduler.setup_event, bind, lift.
  destruct (subscript ev "type") as [ty|e]; [|left; reflexivity].
  destruct (get_component _) as [[p|]|e]; try (left; reflexivity).
  unfold call_create.
  destruct (create p r (heap w) ev) as [l|e]; [|left; reflexivity].
  unfold add_event_listener, bind, deref.
  destruct (heap w !! r); [right; exists l|left]; reflexivity.
Qed.

Lemma setup_events_last (r : ref) (evs : list json) :
  forall (w : World Hass L) (base : list (Schedule L)) (s : Schedule L),
    heap w = base ++ [s] -> length base = r ->
    exists s', heap (snd (for_each (setup_event r) evs w)) = base ++ [s'].
Proof.
  induction evs as [|ev evs IH]; intros w base s Hw Hr; simpl.
  - exists s. exact Hw.
  - unfold bind.
    destruct (setup_event_heap r ev w) as [Hsame | (l & Halt)];
      destruct (setup_event r ev w) as [[u|e] w1]; simpl in *.
    + eapply IH; [rewrite Hsame; exact Hw | exact Hr].
    + exists s. rewrite Hsame. exact Hw.
    + eapply IH; [|exact Hr]. rewrite Halt, Hw.
      rewrite alter_app_r_alt, Hr, Nat.sub_diag by lia. reflexivity.
    + eexists. rewrite Halt, Hw.
      rewrite alter_app_r_alt, Hr, Nat.sub_diag by lia. reflexivity.
Qed.

Lemma Schedule_schedule_heap (r : ref) (w : World Hass L) :
  heap (snd (Schedule_schedule r w)) = heap w.
Proof.
  unfold Schedule_schedule, bind, deref.
  destruct (heap w !! r) as [s|]; [|reflexivity].
  apply for_each_call_schedule_heap.
Qed.

(** Whatever [setup_schedule] does with a description, the store afterwards
    is the old store with at most one schedule appended. *)
Lemma setup_schedule_store (sd : json) (w : World Hass L) :
  exists extra : list (Schedule L),
    heap (snd (setup_schedule sd w)) = heap w ++ extra /\
    (length extra <= 1)%nat.
Proof.
  assert (Hsame : forall e : exn,
            exists extra : list (Schedule L),
              heap (snd (Raise (A:=bool) e, w)) = heap w ++ extra /\
              (length extra <= 1)%nat).
  { intros e. exists []. rewrite app_nil_r. split; [reflexivity | simpl; lia]. }
  unfold Scheduler.setup_schedule.
  unfold bind at 1, lift at 1.
  destruct (subscript sd "id") as [sid|e]; [|apply Hsame].
  unfold bind at 1, lift at 1.
  destruct (subscript sd "name") as [nm|e]; [|apply Hsame].
  unfold bind at 1, lift at 1.
  destruct (subscript sd "description") as [descr|e]; [|apply Hsame].
  unfold bind at 1, lift at 1.
  destruct (subscript sd "entity_ids") as [ents|e]; [|apply Hsame].
  unfold bind at 1, lift at 1.
  destruct (subscript sd "days") as [dys|e]; [|apply Hsame].
  clear Hsame.
  unfold bind at 1, new_Schedule at 1.
  fold (constructed sid nm descr ents dys w).
  assert (Hone : forall (x : result bool) (w1 : World Hass L),
            (exists s, heap w1 = heap w ++ [s]) ->
            exists extra : list (Schedule L),
              heap (snd (x, w1)) = heap w ++ extra /\ (length extra <= 1)%nat).
  { intros x w1 (s & Hs). exists [s]. split; [exact Hs | simpl; lia]. }
  unfold bind at 1, lift at 1.
  destruct (subscript sd "events") as [events|e];
    [|apply Hone; eexists; reflexivity].
  unfold bind at 1, lift at 1.
  destruct (iter events) as [items|e]; [|apply Hone; eexists; reflexivity].
  unfold bind at 1.
  destruct (setup_events_last (length (heap w)) items
              (constructed sid nm descr ents dys w) (heap w)
              (Schedule_init sid nm descr ents dys) eq_refl eq_refl)
    as (s' & Hs').
  destruct (for_each (setup_event (length (heap w))) items
              (constructed sid nm descr ents dys w)) as [[u|e] w2];
    simpl in Hs'; [|apply Hone; eauto].
  unfold bind at 1.
  pose proof (Schedule_schedule_heap (length (heap w)) w2) as Hsch.
  destruct (Schedule_schedule (length (heap w)) w2) as [[u'|e] w3];
    simpl in Hsch; apply Hone; exists s'; congruence.
Qed.

Lemma setup_all_app_raise (pre post : list json) (sd : json) :
  forall (w w1 w2 : World Hass L) (b : bool) (e : exn),
    setup_all pre w = (Ok b, w1) ->
    setup_schedule sd w1 = (Raise e, w2) ->
    setup_all (pre ++ sd :: post) w = (Raise e, w2).
Proof.
  induction pre as [|sd0 pre IH]; intros w w1 w2 b e Hpre Hsd; simpl in *.
  - inversion Hpre. subst. apply bind_raise. exact Hsd.
  - apply bind_Ok in Hpre as (ok & w0 & Hsd0 & Hpre).
    rewrite (bind_step _ _ _ _ _ Hsd0).
    destruct ok; simpl in *.
    + eapply IH; eassumption.
    + apply (setup_schedule_Ok get_component py_repr) in Hsd0
        as (? & ? & ? & ? & ? & ? & ? & ? &
            _ & _ & _ & _ & _ & _ & _ & _ & _ & _ & Hb).
      discriminate Hb.
Qed.

(** X9. [setup] does not undo anything: when the descriptions before [sd]
    are set up and [sd] raises, the loop ends with that error in the world
    [sd] left, and the descriptions after [sd] are never processed.  The
    store is then the store the earlier descriptions were set up in, with
    at most the schedule of [sd] appended. *)
Theorem setup_all_stops_at_first_error (pre post : list json) (sd : json)
    (w w1 w2 : World Hass L) (b : bool) (e : exn) :
  setup_all pre w = (Ok b, w1) ->
  setup_schedule sd w1 = (Raise e, w2) ->
  setup_all (pre ++ sd :: post) w = (Raise e, w2) /\
  exists extra : list (Schedule L),
    heap w2 = heap w1 ++ extra /\ (length extra <= 1)%nat.
Proof.
  intros Hpre Hsd. split.
  - eapply setup_all_app_raise; eassumption.
  - destruct (setup_schedule_store sd w1) as (extra & Hex & Hlen).
    rewrite Hsd in Hex. simpl in Hex.
    exists extra. split; assumption.
Qed.

(** X10. [Schedule.schedule] ends with the first exception a listener
    raises: the listeners before it have been scheduled and stay so, the
    ones after it are never called, and the store of schedules is as it
    was. *)
Theorem Schedule_schedule_stops_at_first_error (r : ref) (s : Schedule L)
    (pre post : list L) (l : L) (w w1 w2 : World Hass L) (e : exn) :
  heap w !! r = Some s ->
  _event_listeners s = pre ++ l :: post ->
  for_each call_schedule pre w = (Ok tt, w1) ->
  call_schedule l w1 = (Raise e, w2) ->
  Schedule_schedule r w = (Raise e, w2) /\ heap w2 = heap w.
Proof.
  intros Hs Hls Hpre Hl.
  assert (Hrun : Schedule_schedule r w = (Raise e, w2)).
  { unfold Schedule_schedule.
    rewrite (bind_step _ _ w s w) by (apply deref_found; exact Hs).
    rewrite Hls. eapply for_each_raise_at; eassumption. }
  split; [exact Hrun|].
  pose proof (Schedule_schedule_heap r w) as Hh.
  rewrite Hrun in Hh. exact Hh.
Qed.

(** With the five entries there the schedule is constructed, and whatever
    [setup_schedule] does afterwards, it is the last of the store, with
    listeners appended to it and nothing else changed. *)
Lemma setup_events_last_listeners (r : ref) (evs : list json) :
  forall (w : World Hass L) (base : list (Schedule L)) (s : Schedule L),
    heap w = base ++ [s] -> length base = r ->
    exists ls, heap (snd (for_each (setup_event r) evs w))
               = base ++ [add_listeners ls s].
Proof.
  induction evs as [|ev evs IH]; intros w base s Hw Hr; simpl.
  - exists []. exact Hw.
  - unfold bind.
    destruct (setup_event_heap r ev w) as [Hsame | (l & Halt)];
      destruct (setup_event r ev w) as [[u|e] w1]; simpl in *.
    + eapply IH; [rewrite Hsame; exact Hw | exact Hr].
    + exists []. rewrite Hsame. exact Hw.
    + destruct (IH w1 base (append_listener l s)) as (ls & Hls);
        [|exact Hr|exists (l :: ls); exact Hls].
      rewrite Halt, Hw.
      rewrite alter_app_r_alt, Hr, Nat.sub_diag by lia. reflexivity.
    + exists [l]. rewrite Halt, Hw.
      rewrite alter_app_r_alt, Hr, Nat.sub_diag by lia. reflexivity.
Qed.

Lemma setup_schedule_constructed (sd sid nm descr ents dys : json)
    (w : World Hass L) :
  has_fields sd sid nm descr ents dys ->
  exists ls : list L,
    heap (snd (setup_schedule sd w))
    = heap w ++ [add_listeners ls (Schedule_init sid nm descr ents dys)].
Proof.
  intros Hf. rewrite (setup_schedule_from_fields _ _ _ _ _ _ _ Hf).
  unfold bind at 1, lift at 1.
  destruct (subscript sd "events") as [events|e]; [|exists []; reflexivity].
  unfold bind at 1, lift at 1.
  destruct (iter events) as [items|e]; [|exists []; reflexivity].
  unfold bind at 1.
  destruct (setup_events_last_listeners (length (heap w)) items
              (constructed sid nm descr ents dys w) (heap w)
              (Schedule_init sid nm descr ents dys) eq_refl eq_refl)
    as (ls & Hls).
  destruct (for_each (setup_event (length (heap w))) items
              (constructed sid nm descr ents dys w)) as [[u|e] w2];
    simpl in Hls; [|exists ls; exact Hls].
  unfold bind at 1.
  pose proof (Schedule_schedule_heap (length (heap w)) w2) as Hsch.
  destruct (Schedule_schedule (length (heap w)) w2) as [[u'|e] w3];
    simpl in Hsch; exists ls; simpl; congruence.
Qed.

(** X19. When a description has the five constructor entries and its [days]
    is [null], an empty list or any other false value, the schedule that
    [setup_schedule] constructs has [days = [0, 1, 2, 3, 4, 5, 6]], and it
    is in the store with these days whether the rest of the set-up returns
    or raises. *)
Theorem setup_schedule_days_default (sd sid nm descr ents dys : json)
    (w : World Hass L) :
  has_fields sd sid nm descr ents dys ->
  truthy dys = false ->
  exists s : Schedule L,
    heap (snd (setup_schedule sd w)) = heap w ++ [s] /\
    schedule_id s = sid /\
    days s = JList [JInt 0; JInt 1; JInt 2; JInt 3; JInt 4; JInt 5; JInt 6].
Proof.
  intros Hf Hfalse.
  destruct (setup_schedule_constructed sd sid nm descr ents dys w Hf)
    as (ls & Hheap).
  destruct (add_listeners_fields ls (Schedule_init sid nm descr ents dys))
    as (_ & _ & Hd & Hi).
  eexists. split; [exact Hheap|]. split; [exact Hi|].
  rewrite Hd. simpl. unfold py_or. rewrite Hfalse. reflexivity.
Qed.

(** X8. Whatever [setup] does with the descriptions of the file, whether it
    returns or raises, it never changes or removes a schedule that was in
    the store before the call: the store afterwards is the old store with
    at most one schedule appended for each description. *)
Theorem setup_keeps_store (defs : list json) :
  forall w : World Hass L,
    (exists extra : list (Schedule L),
       heap (snd (setup_all defs w)) = heap w ++ extra /\
       (length extra <= length defs)%nat) /\
    (exists extra : list (Schedule L),
       heap (snd (setup w)) = heap w ++ extra).
Proof.
  assert (Hall : forall (defs : list json) (w : World Hass L),
            exists extra : list (Schedule L),
              heap (snd (setup_all defs w)) = heap w ++ extra /\
              (length extra <= length defs)%nat).
  { clear defs. induction defs as [|sd defs IH]; intros w; simpl.
    - exists []. rewrite app_nil_r. split; [reflexivity | simpl; lia].
    - unfold bind.
      destruct (setup_schedule_store sd w) as (one & Hone & Hlen).
      destruct (setup_schedule sd w) as [[ok|e] w1]; simpl in Hone.
      + destruct ok; simpl.
        * destruct (IH w1) as (extra & Hex & Hlen').
          exists (one ++ extra). rewrite Hex, Hone, <- app_assoc.
          split; [reflexivity | rewrite length_app; lia].
        * exists one. split; [exact Hone | lia].
      + exists one. split; [exact Hone | lia]. }
  intros w. split; [apply Hall|].
  unfold Scheduler.setup, bind, lift.
  destruct (load_schedule_file (hass w)) as [file|e];
    [|exists []; rewrite app_nil_r; reflexivity].
  destruct (iter file) as [items|e];
    [|exists []; rewrite app_nil_r; reflexivity].
  destruct (Hall items w) as (extra & Hex & _). exists extra. exact Hex.
Qed.

End SchedulerMore.

Section SchedulerMoreSamples.
  Import Py Scheduler Clock Sample.

Lemma setup_schedule_missing_key_witness :
  setup_schedule lookup repr (JDict unnamed_entries) w0
  = (Raise (KeyError "name"), w0).
Proof.
  apply (setup_schedule_missing_key lookup repr unnamed_entries "name" w0).
  reflexivity.
Defined.

Lemma setup_file_is_an_object_witness :
  setup lookup repr object_file w0 = (Raise TypeError, w0).
Proof.
  eapply (setup_file_is_an_object lookup repr object_file "id"
            (JStr "morning")).
  reflexivity.
Defined.

Lemma setup_schedule_bad_events_witness :
  setup_schedule lookup repr without_events w0
  = (Raise (KeyError "events"),
     constructed (JStr "bare") (JStr "Bare") JNull JNull JNull w0).
Proof.
  apply (setup_schedule_bad_events lookup repr without_events).
  - repeat split.
  - left. reflexivity.
Defined.

Lemma setup_schedule_no_events_witness :
  setup_schedule lookup repr idle w0
  = (Ok true,
     constructed (JStr "idle") (JStr "Idle") JNull JNull
       (JList [JInt 5; JInt 6]) w0).
Proof.
  apply (setup_schedule_no_events lookup repr idle _ _ _ _ _ (JList [])).
  - repeat split.
  - reflexivity.
  - reflexivity.
Defined.

Lemma setup_schedule_event_fails_witness :
  setup_schedule lookup repr half_typed w0
  = (Raise (KeyError "type"), snd (setup_schedule lookup repr half_typed w0))
  /\ hass (snd (setup_schedule lookup repr half_typed w0)) = hass w0.
Proof.
  apply (setup_schedule_event_fails lookup repr half_typed
           (JStr "half") (JStr "Half") JNull JNull JNull
           (JList [time_event; untyped_event; time_event])
           untyped_event [time_event] [time_event] (KeyError "type") w0).
  - repeat split.
  - reflexivity.
  - reflexivity.
  - reflexivity.
  - left. reflexivity.
Defined.

Lemma setup_schedule_keeps_fields_witness :
  exists s : Schedule TimeEventListener,
    heap (snd (setup_schedule lookup repr morning w0)) = heap w0 ++ [s] /\
    subscript morning "id" = Ok (schedule_id s) /\
    subscript morning "name" = Ok (name s) /\
    subscript morning "description" = Ok (description s) /\
    (forall dys, subscript morning "days" = Ok dys -> truthy dys = true ->
                 days s = dys) /\
    (forall ents, subscript morning "entity_ids" = Ok ents ->
                  truthy ents = false -> entity_ids s = JList []).
Proof.
  apply (setup_schedule_keeps_fields lookup repr morning w0 _ true).
  reflexivity.
Defined.

Lemma setup_schedule_days_default_witness :
  exists s : Schedule TimeEventListener,
    heap (snd (setup_schedule lookup repr restless w0)) = heap w0 ++ [s] /\
    schedule_id s = JStr "restless" /\
    days s = JList [JInt 0; JInt 1; JInt 2; JInt 3; JInt 4; JInt 5; JInt 6].
Proof.
  apply (setup_schedule_days_default lookup repr restless (JStr "restless")
           (JStr "Restless") JNull JNull JNull w0).
  - repeat split.
  - reflexivity.
Defined.

(** The set-up of [restless] itself raises. *)
Example setup_schedule_restless_raises :
  fst (setup_schedule lookup repr restless w0)
  = Raise (PluginResolutionError "scheduler.foo").
Proof. reflexivity. Qed.

Lemma setup_all_one_schedule_each_witness :
  exists ss : list (Schedule TimeEventListener),
    heap (snd (setup_all lookup repr [morning; morning] w0)) = heap w0 ++ ss /\
    Forall2 (fun sd s => subscript sd "id" = Ok (schedule_id s))
      [morning; morning] ss.
Proof.
  apply (setup_all_one_schedule_each lookup repr [morning; morning] w0 _ true).
  reflexivity.
Defined.

Lemma setup_all_stops_at_first_error_witness :
  setup_all lookup repr ([morning] ++ night :: [idle]) w0
  = (Raise (PluginResolutionError "scheduler.foo"),
     snd (setup_schedule lookup repr night
            (snd (setup_all lookup repr [morning] w0)))) /\
  exists extra : list (Schedule TimeEventListener),
    heap (snd (setup_schedule lookup repr night
                 (snd (setup_all lookup repr [morning] w0))))
    = heap (snd (setup_all lookup repr [morning] w0)) ++ extra /\
    (length extra <= 1)%nat.
Proof.
  apply (setup_all_stops_at_first_error lookup repr [morning] [idle] night w0
           (snd (setup_all lookup repr [morning] w0)) _ true).
  - reflexivity.
  - reflexivity.
Defined.

Lemma Schedule_schedule_stops_at_first_error_witness :
  Schedule_schedule 0%nat w_stray
  = (Raise ReferenceError, snd (Schedule_schedule 0%nat w_stray)) /\
  heap (snd (Schedule_schedule 0%nat w_stray)) = heap w_stray.
Proof.
  eapply (Schedule_schedule_stops_at_first_error 0%nat _
            [at_seven] [at_seven] stray w_stray
            (snd (call_schedule at_seven w_stray))).
  - reflexivity.
  - reflexivity.
  - reflexivity.
  - reflexivity.
Defined.

(** After the failed call at the sample store the listener before [stray]
    is registered and the one after it is not. *)
Example Schedule_schedule_stray_sample :
  pending_count (hass (snd (Schedule_schedule 0%nat w_stray))) = 1%nat.
Proof. reflexivity. Qed.

End SchedulerMoreSamples.

(** * Further properties of the Modbus binary sensors *)

Section ModbusMore.
  Import Py Modbus.

Lemma broadcast_attached (m : ModbusBinarySensor) :
  broadcast m = broadcast_to (attached m) m.
Proof.
  unfold broadcast, attached.
  destruct (_virtual_sensors m) as [[|r rs]|]; reflexivity.
Qed.

Lemma broadcast_to_fields (rs : list vref) :
  forall m : ModbusBinarySensor,
    _value (broadcast_to rs m) = _value m /\
    master_available (broadcast_to rs m) = master_available m /\
    _virtual_sensors (broadcast_to rs m) = _virtual_sensors m /\
    calls (broadcast_to rs m)
    = rev (List.map (fun r => ScheduleUpdate (Some r)) rs) ++ calls m.
Proof.
  induction rs as [|r rs IH]; intros m; simpl; [repeat split|].
  destruct (IH (set_from_master r (_value m) (master_available m) m))
    as (Hv & Ha & Hs & Hc).
  unfold broadcast_to in *. rewrite Hv, Ha, Hs, Hc. simpl.
  rewrite <- app_assoc. repeat split.
Qed.

(** The loop over the attached sensors changes state and availability of
    those sensors and nothing else in the store. *)
Lemma broadcast_to_frame (rs : list vref) :
  forall (m : ModbusBinarySensor) (r : vref) (v : virtualBinarySensor),
    store m !! r = Some v ->
    exists v',
      store (broadcast_to rs m) !! r = Some v' /\
      _name v' = _name v /\
      _device_class v' = _device_class v /\
      (r ∉ rs -> v' = v).
Proof.
  induction rs as [|x rs IH]; intros m r v Hv.
  - exists v. repeat split. exact Hv.
  - change (broadcast_to (x :: rs) m)
      with (broadcast_to rs
              (set_from_master x (_value m) (master_available m) m)).
    destruct (decide (x = r)) as [->|Hne].
    + edestruct (IH (set_from_master r (_value m) (master_available m) m) r)
        as (v' & Hv' & Hn & Hd & _).
      { unfold set_from_master. cbn [store].
        rewrite list_lookup_alter_eq. apply fmap_Some.
        exists v. split; [exact Hv | reflexivity]. }
      exists v'. repeat split; try assumption.
      intros Hnot. exfalso. apply Hnot. left.
    + edestruct (IH (set_from_master x (_value m) (master_available m) m) r)
        as (v' & Hv' & Hn & Hd & Hsame).
      { unfold set_from_master. cbn [store].
        rewrite list_lookup_alter_ne by exact Hne. exact Hv. }
      exists v'. repeat split; try assumption.
      intros Hnot. apply Hsame. intros Hin. apply Hnot. right. exact Hin.
Qed.

Lemma broadcast_to_length (rs : list vref) :
  forall m : ModbusBinarySensor,
    length (store (broadcast_to rs m)) = length (store m).
Proof.
  induction rs as [|x rs IH]; intros m; [reflexivity|].
  change (broadcast_to (x :: rs) m)
    with (broadcast_to rs
            (set_from_master x (_value m) (master_available m) m)).
  rewrite IH. unfold set_from_master. cbn [store]. apply length_alter.
Qed.

(** What a call of [async_update] does to the store, whatever the hub
    gave. *)
Lemma async_update_store (hub_result : option (list bool))
    (m : ModbusBinarySensor) :
  store (snd (async_update hub_result m)) = store m \/
  exists (value : pyval) (available : bool),
    store (snd (async_update hub_result m))
    = store (broadcast_to (attached m) (with_master value available m)).
Proof.
  unfold async_update. destruct hub_result as [[|b bits]|]; simpl.
  - left. reflexivity.
  - right. exists (VInt (if b then 1 else 0)), true.
    rewrite broadcast_attached. reflexivity.
  - right. exists (_value m), false. rewrite broadcast_attached. reflexivity.
Qed.

(** X11. [async_update] never adds, removes or renames a virtual sensor:
    whatever the hub gave, every sensor of the store is still there with
    its name and device class, and a sensor that is not attached to this
    master is exactly as it was. *)
Theorem async_update_frame (hub_result : option (list bool))
    (m : ModbusBinarySensor) (r : vref) (v : virtualBinarySensor) :
  store m !! r = Some v ->
  length (store (snd (async_update hub_result m))) = length (store m) /\
  exists v',
    store (snd (async_update hub_result m)) !! r = Some v' /\
    _name v' = _name v /\
    _device_class v' = _device_class v /\
    (r ∉ attached m -> v' = v).
Proof.
  intros Hv.
  destruct (async_update_store hub_result m) as [Hsame | (value & av & Hst)].
  - rewrite Hsame. split; [reflexivity|]. exists v. repeat split. exact Hv.
  - rewrite Hst. split.
    + rewrite broadcast_to_length. reflexivity.
    + apply (broadcast_to_frame (attached m) (with_master value av m) r v).
      exact Hv.
Qed.

(** X12. A call of [async_update] that returns asks the entity platform
    for exactly one state update per attached virtual sensor, in the order
    of the sensors, then for one of the master when the hub gave a response,
    and last writes the state of the master. *)
Theorem async_update_calls (hub_result : option (list bool))
    (m : ModbusBinarySensor) :
  hub_result <> Some [] ->
  calls (snd (async_update hub_result m))
  = WriteState
    :: (match hub_result with
        | Some _ => [ScheduleUpdate None]
        | None => []
        end)
    ++ rev (List.map (fun r => ScheduleUpdate (Some r)) (attached m))
    ++ calls m.
Proof.
  intros Hbits. unfold async_update.
  destruct hub_result as [[|b bits]|]; [congruence| |].
  - set (m1 := with_master (VInt (if b then 1 else 0)) true m).
    cbn [snd]. unfold ha. cbn [calls]. rewrite broadcast_attached.
    destruct (broadcast_to_fields (attached m1) m1) as (_ & _ & _ & Hc).
    rewrite Hc. reflexivity.
  - set (m1 := with_master (_value m) false m).
    cbn [snd]. unfold ha. cbn [calls]. rewrite broadcast_attached.
    destruct (broadcast_to_fields (attached m1) m1) as (_ & _ & _ & Hc).
    rewrite Hc. reflexivity.
Qed.

(** After the loop every sensor the loop went over is the sensor it was,
    with the value and availability of the master written to it. *)
Lemma broadcast_to_exact (rs : list vref) :
  forall (m : ModbusBinarySensor) (r : vref) (v : virtualBinarySensor),
    r ∈ rs ->
    store m !! r = Some v ->
    store (broadcast_to rs m) !! r
    = Some (shown (_value m) (master_available m) v).
Proof.
  induction rs as [|x rs IH] using rev_ind; intros m r v Hin Hv.
  - apply elem_of_nil in Hin. contradiction.
  - rewrite broadcast_to_snoc. unfold set_from_master. cbn [store].
    destruct (decide (x = r)) as [->|Hne].
    + rewrite list_lookup_alter_eq.
      destruct (broadcast_to_frame rs m r v Hv) as (v' & Hv' & Hn & Hd & _).
      apply fmap_Some. exists v'. split; [exact Hv'|].
      unfold shown. rewrite Hn, Hd. reflexivity.
    + rewrite list_lookup_alter_ne by exact Hne.
      apply elem_of_app in Hin as [Hin|Hin].
      * apply IH; assumption.
      * apply list_elem_of_singleton in Hin. congruence.
Qed.

(** One call that returns: the value is the first bit of a response and
    the old value otherwise, the master is available exactly after a
    response, no sensor object is lost, and every attached sensor has both
    written to it. *)
Lemma async_update_exact (hub_result : option (list bool))
    (m : ModbusBinarySensor) :
  hub_result <> Some [] ->
  exists m' : ModbusBinarySensor,
    async_update hub_result m = (Ok tt, m') /\
    _virtual_sensors m' = _virtual_sensors m /\
    _value m' = last_reading [hub_result] (_value m) /\
    master_available m'
    = match hub_result with Some _ => true | None => false end /\
    length (store m') = length (store m) /\
    forall (r : vref) (v : virtualBinarySensor),
      r ∈ attached m ->
      store m !! r = Some v ->
      store m' !! r = Some (shown (_value m') (master_available m') v).
Proof.
  intros Hbits. unfold async_update.
  destruct hub_result as [[|b bits]|]; [congruence| |].
  - eexists. split; [reflexivity|].
    set (m1 := with_master (VInt (if b then 1 else 0)) true m).
    destruct (broadcast_to_fields (attached m1) m1) as (Hv & Ha & Hs & _).
    unfold ha. cbn [_value master_available _virtual_sensors store].
    rewrite broadcast_attached, Hv, Ha, Hs, broadcast_to_length.
    repeat split.
    intros r v Hin Hlook.
    apply (broadcast_to_exact (attached m1) m1 r v Hin Hlook).
  - eexists. split; [reflexivity|].
    set (m1 := with_master (_value m) false m).
    destruct (broadcast_to_fields (attached m1) m1) as (Hv & Ha & Hs & _).
    unfold ha. cbn [_value master_available _virtual_sensors store].
    rewrite broadcast_attached, Hv, Ha, Hs, broadcast_to_length.
    repeat split.
    intros r v Hin Hlook.
    apply (broadcast_to_exact (attached m1) m1 r v Hin Hlook).
Qed.

Lemma exact_synced (m m' : ModbusBinarySensor) :
  attached_exist m ->
  _virtual_sensors m' = _virtual_sensors m ->
  (forall (r : vref) (v : virtualBinarySensor),
     r ∈ attached m ->
     store m !! r = Some v ->
     store m' !! r = Some (shown (_value m') (master_available m') v)) ->
  synced m'.
Proof.
  intros Hex Hvs Hexact r Hin.
  unfold attached in Hin. rewrite Hvs in Hin. fold (attached m) in Hin.
  destruct (Hex r Hin) as [v Hv].
  exists (shown (_value m') (master_available m') v).
  split; [apply Hexact; assumption | split; reflexivity].
Qed.

(** C9 (as the code has it). A call of [async_update] that gets [None] or a
    response with at least one bit from the hub returns.  After it every
    attached virtual sensor is the sensor it was with the value and the
    availability of the master written to it, so all of them show both;
    no sensor object is lost.  When the hub gave [None] the master keeps
    the value it had and is not available, and that is what the virtual
    sensors show. *)
Theorem async_update_syncs_virtual_sensors
    (hub_result : option (list bool)) (m : ModbusBinarySensor) :
  hub_result <> Some [] ->
  exists m' : ModbusBinarySensor,
    async_update hub_result m = (Ok tt, m') /\
    (forall (r : vref) (v : virtualBinarySensor),
       r ∈ attached m ->
       store m !! r = Some v ->
       store m' !! r = Some (shown (_value m') (master_available m') v)) /\
    length (store m') = length (store m) /\
    (attached_exist m -> synced m') /\
    _virtual_sensors m' = _virtual_sensors m /\
    (hub_result = None ->
       _value m' = _value m /\ master_available m' = false) /\
    (forall b bits, hub_result = Some (b :: bits) ->
       _value m' = VInt (if b then 1 else 0) /\ master_available m' = true).
Proof.
  intros Hbits.
  destruct (async_update_exact hub_result m Hbits)
    as (m' & Hrun & Hvs & Hval & Hav & Hlen & Hexact).
  exists m'. split; [exact Hrun|]. split; [exact Hexact|].
  split; [exact Hlen|]. split; [|split; [exact Hvs|split]].
  - intros Hex. eapply exact_synced; eassumption.
  - intros ->. rewrite Hval, Hav. split; reflexivity.
  - intros b bits ->. rewrite Hval, Hav. split; reflexivity.
Qed.

Lemma shown_shown (a c : pyval) (b d : bool) (v : virtualBinarySensor) :
  shown a b (shown c d v) = shown a b v.
Proof. reflexivity. Qed.

(** X13. After any number of calls of [async_update], each with [None] or
    a response with at least one bit from the hub, the value of the master
    is the first bit of the last response (the value it started with when
    there was none): a call without response never changes it.  After at
    least one call the master is available exactly when the last call got
    a response, and every attached virtual sensor is the sensor it was
    with that value and availability written to it; no sensor object is
    lost. *)
Theorem poll_last_reading (hub_results : list (option (list bool))) :
  forall m : ModbusBinarySensor,
    Forall (fun hub_result => hub_result <> Some []) hub_results ->
    exists m' : ModbusBinarySensor,
      poll hub_results m = (Ok tt, m') /\
      _value m' = last_reading hub_results (_value m) /\
      _virtual_sensors m' = _virtual_sensors m /\
      length (store m') = length (store m) /\
      (hub_results <> [] ->
       master_available m'
       = match last hub_results with
         | Some (Some _) => true
         | _ => false
         end /\
       (forall (r : vref) (v : virtualBinarySensor),
          r ∈ attached m ->
          store m !! r = Some v ->
          store m' !! r = Some (shown (_value m') (master_available m') v)) /\
       (attached_exist m -> synced m')).
Proof.
  induction hub_results as [|hub_result rest IH]; intros m Hall.
  - exists m. split; [reflexivity|]. split; [reflexivity|].
    split; [reflexivity|]. split; [reflexivity|]. intros Hne. contradiction.
  - apply Forall_cons in Hall as [Hhub Hrest].
    destruct (async_update_exact hub_result m Hhub)
      as (m1 & Hrun & Hvs & Hval & Hav & Hlen & Hexact).
    destruct (IH m1 Hrest) as (m' & Hpoll & Hval' & Hvs' & Hlen' & Hlast).
    exists m'. simpl poll. rewrite Hrun.
    split; [exact Hpoll|]. split; [rewrite Hval', Hval; reflexivity|].
    split; [congruence|]. split; [congruence|].
    intros _.
    assert (Hboth :
      master_available m'
      = match last (hub_result :: rest) with
        | Some (Some _) => true
        | _ => false
        end /\
      forall (r : vref) (v : virtualBinarySensor),
        r ∈ attached m ->
        store m !! r = Some v ->
        store m' !! r = Some (shown (_value m') (master_available m') v)).
    { destruct rest as [|next rest].
      - simpl in Hpoll. inversion Hpoll. subst m'.
        split; [rewrite Hav; reflexivity | exact Hexact].
      - destruct Hlast as (Ha & Hex' & _); [discriminate|].
        split; [rewrite Ha; reflexivity|].
        intros r v Hin Hlook.
        rewrite <- (shown_shown _ (_value m1) _ (master_available m1) v).
        apply Hex'.
        + unfold attached in *. rewrite Hvs. exact Hin.
        + apply Hexact; assumption. }
    destruct Hboth as [Ha Hex'].
    split; [exact Ha|]. split; [exact Hex'|].
    intros Hex. eapply exact_synced; [exact Hex | congruence | exact Hex'].
Qed.

Lemma extend_names_length (sensor_name : string) (count : option Z)
    (names : option (list string)) :
  Z.of_nat (length (extend_names sensor_name count names))
  = Z.max (default 0 count) (Z.of_nat (length (default [] names))).
Proof.
  rewrite extend_names_eq, length_app, length_map, range_length. lia.
Qed.

(** X14. [_create_virtual] appends the generated names to the very list it
    was given.  Called again with that list, for the same sensor name and
    count, it appends nothing more and creates the same sensors as the first
    time. *)
Theorem _create_virtual_again (sensor_name : string)
    (device_class : option string) (count : option Z)
    (names : option (list string)) :
  extend_names sensor_name count
    (Some (extend_names sensor_name count names))
  = extend_names sensor_name count names /\
  _create_virtual sensor_name device_class count
    (Some (extend_names sensor_name count names))
  = _create_virtual sensor_name device_class count names.
Proof.
  assert (Hagain : extend_names sensor_name count
                     (Some (extend_names sensor_name count names))
                   = extend_names sensor_name count names).
  { rewrite (extend_names_eq sensor_name count (Some _)). simpl default.
    pose proof (extend_names_length sensor_name count names) as Hlen.
    unfold range.
    replace (Z.to_nat _) with 0%nat by lia.
    simpl. apply app_nil_r. }
  split; [exact Hagain|].
  rewrite !_create_virtual_eq, Hagain. reflexivity.
Qed.

Lemma append_inj_r (s a b : string) :
  String.append s a = String.append s b -> a = b.
Proof.
  induction s as [|c s IH]; simpl; intros Heq; [exact Heq|].
  inversion Heq. apply IH. assumption.
Qed.

Lemma str_of_Z_inj (i j : Z) : str_of_Z i = str_of_Z j -> i = j.
Proof.
  unfold str_of_Z. intros Heq.
  assert (Hok : forall z : Z,
            NilZero.int_of_string (NilZero.string_of_int (Z.to_int z))
            = Some (Z.to_int z)).
  { intros z. apply NilZero.isi; destruct z; simpl; try discriminate;
      intros [= Hnil]; revert Hnil; apply DecimalPos.Unsigned.to_uint_nonnil. }
  apply DecimalZ.to_int_inj.
  pose proof (Hok i) as Hi. rewrite Heq, Hok in Hi. congruence.
Qed.

(** X15. The names [_create_virtual] generates are pairwise distinct: no
    two of the sensors after the first [len(names)] carry the same name. *)
Theorem _create_virtual_generated_distinct (sensor_name : string)
    (device_class : option string) (count : option Z)
    (names : option (list string)) :
  NoDup (drop (length (default [] names))
           (List.map _name
              (_create_virtual sensor_name device_class count names))).
Proof.
  rewrite _create_virtual_eq, extend_names_eq.
  rewrite List.map_map. simpl _name. rewrite List.map_id.
  rewrite drop_app_length.
  unfold range. rewrite List.map_map.
  change (List.map ?f ?l) with (f <$> l).
  apply NoDup_fmap_2; [|apply NoDup_seq].
  intros k1 k2 Heq.
  apply append_inj_r, append_inj_r, str_of_Z_inj in Heq. lia.
Qed.

End ModbusMore.

Section ModbusMoreSamples.
  Import Py Modbus.

Lemma async_update_frame_witness :
  length (store (snd (async_update (Some [true]) Sample.master_of_one)))
  = length (store Sample.master_of_one) /\
  exists v',
    store (snd (async_update (Some [true]) Sample.master_of_one)) !! 1%nat
    = Some v' /\
    _name v' = _name (virtualBinarySensor_init "door_2" None) /\
    _device_class v'
    = _device_class (virtualBinarySensor_init "door_2" None) /\
    (1%nat ∉ attached Sample.master_of_one ->
     v' = virtualBinarySensor_init "door_2" None).
Proof.
  apply (async_update_frame (Some [true]) Sample.master_of_one 1%nat
           (virtualBinarySensor_init "door_2" None)).
  reflexivity.
Defined.

Lemma async_update_calls_witness :
  calls (snd (async_update None Sample.master))
  = WriteState
    :: []
    ++ rev (List.map (fun r => ScheduleUpdate (Some r))
              (attached Sample.master))
    ++ calls Sample.master.
Proof.
  apply (async_update_calls None Sample.master). discriminate.
Defined.

Lemma poll_last_reading_witness :
  exists m' : ModbusBinarySensor,
    poll [Some [true]; None; Some [false; true]; None] Sample.master
    = (Ok tt, m') /\
    _value m'
    = last_reading [Some [true]; None; Some [false; true]; None]
        (_value Sample.master) /\
    _virtual_sensors m' = _virtual_sensors Sample.master /\
    length (store m') = length (store Sample.master) /\
    ([Some [true]; None; Some [false; true]; None] <> [] ->
     master_available m'
     = match last [Some [true]; None; Some [false; true]; None] with
       | Some (Some _) => true
       | _ => false
       end /\
     (forall (r : vref) (v : virtualBinarySensor),
        r ∈ attached Sample.master ->
        store Sample.master !! r = Some v ->
        store m' !! r = Some (shown (_value m') (master_available m') v)) /\
     (attached_exist Sample.master -> synced m')).
Proof.
  apply (poll_last_reading [Some [true]; None; Some [false; true]; None]
           Sample.master).
  repeat constructor; discriminate.
Defined.

(** At the sample master a response without bits raises [IndexError] and
    leaves everything as it was: the master restored as on, its two
    attached sensors without a state. *)
Lemma async_update_empty_response_counterexample :
  async_update (Some []) Sample.master = (Raise IndexError, Sample.master) /\
  _value Sample.master = VBool true /\
  List.map _state (store Sample.master) = [VNone; VNone] /\
  attached Sample.master = [0%nat; 1%nat].
Proof. repeat split. Qed.

Lemma async_update_syncs_virtual_sensors_witness :
  exists m' : ModbusBinarySensor,
    async_update None Sample.master = (Ok tt, m') /\
    (forall (r : vref) (v : virtualBinarySensor),
       r ∈ attached Sample.master ->
       store Sample.master !! r = Some v ->
       store m' !! r = Some (shown (_value m') (master_available m') v)) /\
    length (store m') = length (store Sample.master) /\
    (attached_exist Sample.master -> synced m') /\
    _virtual_sensors m' = _virtual_sensors Sample.master /\
    (@None (list bool) = None ->
       _value m' = _value Sample.master /\ master_available m' = false) /\
    (forall (b : bool) (bits : list bool), None = Some (b :: bits) ->
       _value m' = VInt (if b then 1 else 0) /\ master_available m' = true).
Proof.
  apply (async_update_syncs_virtual_sensors None Sample.master).
  discriminate.
Defined.

(** The references of the sample master are sensors of its store. *)
Example master_attached_exist : attached_exist Sample.master.
Proof.
  intros r Hr. simpl in Hr.
  apply elem_of_cons in Hr as [->|Hr]; [eexists; reflexivity|].
  apply list_elem_of_singleton in Hr. subst r. eexists. reflexivity.
Qed.

(** The four polls at the sample master end with the value 0 of the last
    response on both sensors, and with both unavailable. *)
Example poll_sample :
  List.map (fun v => (_state v, _available v))
    (store (snd (poll [Some [true]; None; Some [false; true]; None]
                   Sample.master)))
  = [(VInt 0, false); (VInt 0, false)].
Proof. reflexivity. Qed.

End ModbusMoreSamples.

(** * Properties of the ESPHome light *)

Section EsphomeFacts.
  Import Py Esphome.

  Variables SUPPORT_BRIGHTNESS SUPPORT_COLOR SUPPORT_COLOR_TEMP SUPPORT_EFFECT
            SUPPORT_FLASH SUPPORT_TRANSITION SUPPORT_WHITE_VALUE : Z.
  Variables ATTR_FLASH ATTR_TRANSITION FLASH_SHORT FLASH_LONG : string.
  Variable py_repr : json -> string.

  Abbreviation supported_features :=
    (supported_features SUPPORT_BRIGHTNESS SUPPORT_COLOR SUPPORT_COLOR_TEMP
       SUPPORT_EFFECT SUPPORT_FLASH SUPPORT_TRANSITION SUPPORT_WHITE_VALUE).
  Abbreviation flash_length := (flash_length FLASH_SHORT FLASH_LONG py_repr).
  Abbreviation async_turn_off :=
    (async_turn_off ATTR_FLASH ATTR_TRANSITION FLASH_SHORT FLASH_LONG py_repr).

Lemma dict_get_set_eq (k : string) (v : json) (d : list (string * json)) :
  dict_get k (dict_set k v d) = Some v.
Proof.
  induction d as [|[k' v'] d IH]; simpl.
  - rewrite String.eqb_refl. reflexivity.
  - destruct (String.eqb k k') eqn:Hk; simpl.
    + rewrite String.eqb_refl. reflexivity.
    + rewrite Hk. exact IH.
Qed.

Lemma dict_get_set_ne (k k0 : string) (v : json) (d : list (string * json)) :
  k0 <> k -> dict_get k0 (dict_set k v d) = dict_get k0 d.
Proof.
  intros Hne. induction d as [|[k' v'] d IH]; simpl.
  - destruct (String.eqb_spec k0 k); [contradiction | reflexivity].
  - destruct (String.eqb_spec k k') as [->|Hk]; simpl.
    + destruct (String.eqb_spec k0 k'); [contradiction | reflexivity].
    + destruct (String.eqb k0 k'); [reflexivity | exact IH].
Qed.

(** The bits of the flags when every constant is a single bit. *)
Lemma supported_features_testbit (info : LightInfo)
    (kb kc kct ke kf kt kw n : Z) :
  Forall (fun k => 0 <= k) [kb; kc; kct; ke; kf; kt; kw] ->
  SUPPORT_BRIGHTNESS = 2 ^ kb -> SUPPORT_COLOR = 2 ^ kc ->
  SUPPORT_COLOR_TEMP = 2 ^ kct -> SUPPORT_EFFECT = 2 ^ ke ->
  SUPPORT_FLASH = 2 ^ kf -> SUPPORT_TRANSITION = 2 ^ kt ->
  SUPPORT_WHITE_VALUE = 2 ^ kw ->
  Z.testbit (supported_features info) n =
  (kf =? n)
  || (supports_brightness info && ((kb =? n) || (kt =? n)))
  || (supports_rgb info && (kc =? n))
  || (supports_white_value info && (kw =? n))
  || (supports_color_temperature info && (kct =? n))
  || (match effects info with [] => false | _ => true end && (ke =? n)).
Proof.
  intros Hpos -> -> -> -> -> -> ->.
  repeat (apply Forall_cons in Hpos as [? Hpos]).
  unfold Esphome.supported_features.
  destruct (supports_brightness info), (supports_rgb info),
    (supports_white_value info), (supports_color_temperature info),
    (effects info);
    simpl; rewrite ?Z.lor_spec, ?Z.pow2_bits_eqb by assumption;
    rewrite ?orb_false_r, ?orb_assoc; reflexivity.
Qed.

(** Settles the comparisons of bit positions that are known to differ. *)
Ltac settle_eqb :=
  repeat match goal with
         | |- context [?a =? ?a] => rewrite (Z.eqb_refl a)
         | |- context [?a =? ?b] =>
             rewrite (proj2 (Z.eqb_neq a b)) by congruence
         end.

(** X16. When the seven feature constants are seven different single bits,
    [supported_features] has the flash bit always, the brightness and the
    transition bit exactly when the light supports brightness, the colour,
    white value and colour temperature bits exactly when the light supports
    each, the effect bit exactly when the list of effects is not empty, and
    no other bit. *)
Theorem supported_features_exact (info : LightInfo)
    (kb kc kct ke kf kt kw : Z) :
  Forall (fun k => 0 <= k) [kb; kc; kct; ke; kf; kt; kw] ->
  NoDup [kb; kc; kct; ke; kf; kt; kw] ->
  SUPPORT_BRIGHTNESS = 2 ^ kb -> SUPPORT_COLOR = 2 ^ kc ->
  SUPPORT_COLOR_TEMP = 2 ^ kct -> SUPPORT_EFFECT = 2 ^ ke ->
  SUPPORT_FLASH = 2 ^ kf -> SUPPORT_TRANSITION = 2 ^ kt ->
  SUPPORT_WHITE_VALUE = 2 ^ kw ->
  Z.testbit (supported_features info) kf = true /\
  Z.testbit (supported_features info) kb = supports_brightness info /\
  Z.testbit (supported_features info) kt = supports_brightness info /\
  Z.testbit (supported_features info) kc = supports_rgb info /\
  Z.testbit (supported_features info) kw = supports_white_value info /\
  Z.testbit (supported_features info) kct = supports_color_temperature info /\
  Z.testbit (supported_features info) ke
  = match effects info with [] => false | _ => true end /\
  forall n, n ∉ [kb; kc; kct; ke; kf; kt; kw] ->
            Z.testbit (supported_features info) n = false.
Proof.
  intros Hpos Hdup Hb Hc Hct He Hf Ht Hw.
  pose proof (fun n => supported_features_testbit info kb kc kct ke kf kt kw n
                         Hpos Hb Hc Hct He Hf Ht Hw) as Hbit.
  repeat (let Hnot := fresh "Hnot" in
          apply NoDup_cons in Hdup as [Hnot Hdup];
          rewrite ?not_elem_of_cons in Hnot).
  clear Hpos Hb Hc Hct He Hf Ht Hw Hdup. destruct_and?.
  repeat split;
    try (intros n Hn; rewrite ?not_elem_of_cons in Hn; destruct_and?);
    rewrite Hbit; clear Hbit;
    destruct (supports_brightness info), (supports_rgb info),
      (supports_white_value info), (supports_color_temperature info),
      (effects info);
    simpl; settle_eqb; reflexivity.
Qed.

(** X17. [async_turn_off] sends exactly one command when the flash of the
    keyword arguments, if there is one, is the short or the long one.  The
    command has the key of the light and [state = False], the
    [transition_length] and the [flash_length] (2 for short, 10 for long) of
    the keyword arguments that are there, and nothing else: brightness,
    colour and effect arguments are ignored. *)
Theorem async_turn_off_command (info : LightInfo)
    (kwargs : list (string * json)) (sent : list (list (string * json))) :
  (forall v, dict_get ATTR_FLASH kwargs = Some v ->
             v = JStr FLASH_SHORT \/ v = JStr FLASH_LONG) ->
  exists data : list (string * json),
    async_turn_off info kwargs sent = (Ok tt, sent ++ [data]) /\
    dict_get "key" data = Some (JInt (key info)) /\
    dict_get "state" data = Some (JBool false) /\
    dict_get "transition_length" data = dict_get ATTR_TRANSITION kwargs /\
    dict_get "flash_length" data
    = match dict_get ATTR_FLASH kwargs with
      | Some v => Some (JInt (if json_is_str FLASH_LONG v then 10 else 2))
      | None => None
      end /\
    forall k : string,
      k ∉ ["key"; "state"; "flash_length"; "transition_length"]%string ->
      dict_get k data = None.
Proof.
  intros Hflash. unfold Esphome.async_turn_off, with_flash, with_transition.
  destruct (dict_get ATTR_FLASH kwargs) as [v|] eqn:Hf.
  - assert (Hlen : flash_length v
                   = Ok (JInt (if json_is_str FLASH_LONG v then 10 else 2))).
    { destruct (Hflash v eq_refl) as [-> | ->]; simpl.
      - destruct (String.eqb FLASH_SHORT FLASH_LONG); [reflexivity|].
        rewrite String.eqb_refl. reflexivity.
      - rewrite String.eqb_refl. reflexivity. }
    rewrite Hlen.
    destruct (dict_get ATTR_TRANSITION kwargs) as [t|];
      (eexists; split; [reflexivity|]; repeat split;
       [intros k Hk; rewrite ?not_elem_of_cons in Hk; simpl;
        repeat match goal with
               | |- context [String.eqb k ?s] =>
                   destruct (String.eqb_spec k s); [tauto|]
               end; reflexivity]).
  - destruct (dict_get ATTR_TRANSITION kwargs) as [t|];
      (eexists; split; [reflexivity|]; repeat split;
       [intros k Hk; rewrite ?not_elem_of_cons in Hk; simpl;
        repeat match goal with
               | |- context [String.eqb k ?s] =>
                   destruct (String.eqb_spec k s); [tauto|]
               end; reflexivity]).
Qed.

(** X18. [async_turn_off] with a flash that is a string other than the
    short and the long one raises [KeyError] of that string and sends no
    command, whatever else the keyword arguments hold. *)
Theorem async_turn_off_unknown_flash (info : LightInfo)
    (kwargs : list (string * json)) (sent : list (list (string * json)))
    (s : string) :
  dict_get ATTR_FLASH kwargs = Some (JStr s) ->
  s <> FLASH_SHORT -> s <> FLASH_LONG ->
  async_turn_off info kwargs sent = (Raise (KeyError s), sent).
Proof.
  intros Hf Hshort Hlong.
  unfold Esphome.async_turn_off, with_flash. rewrite Hf. simpl.
  destruct (String.eqb_spec s FLASH_LONG); [contradiction|].
  destruct (String.eqb_spec s FLASH_SHORT); [contradiction|].
  reflexivity.
Qed.

End EsphomeFacts.

Section EsphomeSamples.
  Import Py Esphome.

Lemma supported_features_exact_witness :
  Z.testbit (supported_features 1 16 2 4 8 32 128 Sample.bulb) 3 = true /\
  Z.testbit (supported_features 1 16 2 4 8 32 128 Sample.bulb) 0
  = supports_brightness Sample.bulb /\
  Z.testbit (supported_features 1 16 2 4 8 32 128 Sample.bulb) 5
  = supports_brightness Sample.bulb /\
  Z.testbit (supported_features 1 16 2 4 8 32 128 Sample.bulb) 4
  = supports_rgb Sample.bulb /\
  Z.testbit (supported_features 1 16 2 4 8 32 128 Sample.bulb) 7
  = supports_white_value Sample.bulb /\
  Z.testbit (supported_features 1 16 2 4 8 32 128 Sample.bulb) 1
  = supports_color_temperature Sample.bulb /\
  Z.testbit (supported_features 1 16 2 4 8 32 128 Sample.bulb) 2
  = match effects Sample.bulb with [] => false | _ => true end /\
  forall n, n ∉ [0; 4; 1; 2; 3; 5; 7] ->
            Z.testbit (supported_features 1 16 2 4 8 32 128 Sample.bulb) n
            = false.
Proof.
  apply (supported_features_exact 1 16 2 4 8 32 128 Sample.bulb 0 4 1 2 3 5 7);
    try reflexivity.
  - repeat constructor; discriminate.
  - apply (bool_decide_unpack _). reflexivity.
Defined.

(** The flags of the sample light: flash, brightness, transition, colour and
    effect. *)
Example supported_features_sample :
  supported_features 1 16 2 4 8 32 128 Sample.bulb = 61.
Proof. reflexivity. Qed.

Lemma async_turn_off_command_witness :
  exists data : list (string * json),
    async_turn_off "flash" "transition" "short" "long" Sample.repr
      Sample.bulb Sample.off_slowly [] = (Ok tt, [] ++ [data]) /\
    dict_get "key" data = Some (JInt (key Sample.bulb)) /\
    dict_get "state" data = Some (JBool false) /\
    dict_get "transition_length" data
    = dict_get "transition" Sample.off_slowly /\
    dict_get "flash_length" data
    = match dict_get "flash" Sample.off_slowly with
      | Some v => Some (JInt (if json_is_str "long" v then 10 else 2))
      | None => None
      end /\
    forall k : string,
      k ∉ ["key"; "state"; "flash_length"; "transition_length"]%string ->
      dict_get k data = None.
Proof.
  apply (async_turn_off_command "flash" "transition" "short" "long"
           Sample.repr Sample.bulb Sample.off_slowly []).
  intros v [= <-]. right. reflexivity.
Defined.

(** The command sent for the sample arguments: the brightness is left
    out. *)
Example async_turn_off_sample :
  snd (async_turn_off "flash" "transition" "short" "long" Sample.repr
         Sample.bulb Sample.off_slowly [])
  = [[("key", JInt 42); ("state", JBool false); ("flash_length", JInt 10);
      ("transition_length", JInt 3)]%string].
Proof. reflexivity. Qed.

Lemma async_turn_off_unknown_flash_witness :
  async_turn_off "flash" "transition" "short" "long" Sample.repr
    Sample.bulb Sample.off_blinking []
  = (Raise (KeyError "strobe"), []).
Proof.
  apply (async_turn_off_unknown_flash "flash" "transition" "short" "long"
           Sample.repr Sample.bulb Sample.off_blinking [] "strobe").
  - reflexivity.
  - discriminate.
  - discriminate.
Defined.

End EsphomeSamples.
